(** * Agentic patterns: the ReAct loop, the reflection loop and the crew scheduler

    A shallow embedding of [planning_pattern/react_agent.py] and
    [reflection_pattern/reflection_agent.py], together with the crew
    scheduler that the specification describes, and the properties the
    specification states about them.

    Layout: Part I holds the definitions (Python values, the effect monad,
    the collaborators, the two agents, the crew scheduler, concrete stubs);
    Part II holds the lemmas and theorems about the statements of the
    specification; Part III holds further properties of the two agents. *)

From Stdlib Require Import String Ascii List ZArith Bool Arith Lia.
From Stdlib Require Import DecimalString Relations.
Import ListNotations.
Local Open Scope list_scope.
Local Open Scope string_scope.
Set Warnings "-register-all".

(* ===================================================================== *)
(** * Part I: definitions *)
(* ===================================================================== *)

(** ** Text helpers *)

(** The double-quote character, written by code so that no literal has to
    contain it. *)
Definition dquote : ascii := "034"%char.
Definition newline : ascii := "010"%char.

(** [dq s] is [s] with every backtick replaced by a double quote: the
    program's literals that contain double quotes are written with
    backticks and passed through [dq]. *)
Fixpoint dq (s : string) : string :=
  match s with
  | EmptyString => EmptyString
  | String c s' => String (if Ascii.eqb c "`"%char then dquote else c) (dq s')
  end.

(** Python's [sep.join(parts)]. *)
Fixpoint join (sep : string) (parts : list string) : string :=
  match parts with
  | [] => ""
  | [p] => p
  | p :: ps => p ++ sep ++ join sep ps
  end.

(** A triple-quoted literal, given line by line. *)
Definition lines (ls : list string) : string :=
  join (String newline EmptyString) ls.

(** [strip_prefix p s] is [Some rest] when [s = p ++ rest]. *)
Fixpoint strip_prefix (p s : string) : option string :=
  match p, s with
  | EmptyString, _ => Some s
  | String a p', String b s' =>
      if Ascii.eqb a b then strip_prefix p' s' else None
  | String _ _, EmptyString => None
  end.

(** Python's [needle in hay] on strings. *)
Fixpoint str_contains (needle hay : string) : bool :=
  match strip_prefix needle hay with
  | Some _ => true
  | None =>
      match hay with
      | EmptyString => false
      | String _ hay' => str_contains needle hay'
      end
  end.

(** [split_at needle hay] cuts [hay] at the first occurrence of [needle]:
    the text before it and the text after it. *)
Fixpoint split_at (needle hay : string) : option (string * string) :=
  match strip_prefix needle hay with
  | Some rest => Some (EmptyString, rest)
  | None =>
      match hay with
      | EmptyString => None
      | String c hay' =>
          match split_at needle hay' with
          | Some (before, rest) => Some (String c before, rest)
          | None => None
          end
      end
  end.

(** [template % arg] for a template whose only conversion is one [%s] and
    a string argument: the argument replaces the [%s]. *)
Fixpoint percent_format (template arg : string) : string :=
  match template with
  | EmptyString => EmptyString
  | String c rest =>
      match strip_prefix "%s" template with
      | Some after => arg ++ after
      | None => String c (percent_format rest arg)
      end
  end.

(** ** Python values

    The values that [json.loads] produces and that the tools of the model
    return: [None], booleans, integers, strings, lists and dicts.  A dict is
    an association list in insertion order.  Floating point numbers are
    outside the model.  A string is a sequence of code points below 256. *)

Inductive PyVal : Type :=
| PyNone
| PyBool (b : bool)
| PyInt (n : Z)
| PyStr (s : string)
| PyList (items : list PyVal)
| PyDict (entries : list (PyVal * PyVal)).

(** The exceptions the model can raise.  [ArgumentError],
    [UnknownToolError], [CyclicDependencyError] and [NodeExecutionError] are
    names of the specification's taxonomy; no statement of the two agents
    raises [UnknownToolError]. *)
Inductive PyExn : Type :=
| KeyError (key : PyVal)
| IndexError
| TypeError
| ValueError (msg : string)
| JSONDecodeError
| UnboundLocalError
| ArgumentError
| UnknownToolError
| CyclicDependencyError
| NodeExecutionError (name : string)
| ExternalError (msg : string).

Inductive Res (A : Type) : Type :=
| Ok (a : A)
| Raise (e : PyExn).
Arguments Ok {A} a.
Arguments Raise {A} e.

(** Sequencing of statements that can raise and have no other effect. *)
Definition res_bind {A B : Type} (r : Res A) (k : A -> Res B) : Res B :=
  match r with
  | Ok a => k a
  | Raise e => Raise e
  end.

(** *** [repr] *)

Definition repr_int (n : Z) : string := NilZero.string_of_int (Z.to_int n).

Definition hex_digit (n : nat) : ascii :=
  nth n (list_ascii_of_string "0123456789abcdef") "0"%char.

Definition printable (c : ascii) : bool :=
  let n := nat_of_ascii c in
  ((32 <=? n) && (n <? 127) || (161 <=? n) && negb (n =? 173))%nat.

(** One character of a string literal quoted with [q]. *)
Definition repr_char (q c : ascii) : string :=
  if Ascii.eqb c "\"%char then "\\"
  else if Ascii.eqb c q then String "\"%char (String q EmptyString)
  else if Ascii.eqb c newline then "\n"
  else if Ascii.eqb c "013"%char then "\r"
  else if Ascii.eqb c "009"%char then "\t"
  else if printable c then String c EmptyString
  else
    let n := nat_of_ascii c in
    String "\"%char (String "x"%char
      (String (hex_digit (n / 16)%nat)
         (String (hex_digit (n mod 16)%nat) EmptyString))).

Definition has_char (c : ascii) (s : string) : bool :=
  existsb (Ascii.eqb c) (list_ascii_of_string s).

(** [repr] of a string: single quotes, unless the text holds a single quote
    and no double quote. *)
Definition repr_str (s : string) : string :=
  let q := if has_char "'"%char s && negb (has_char dquote s)
           then dquote else "'"%char in
  String q (join "" (map (repr_char q) (list_ascii_of_string s))
            ++ String q EmptyString).

Fixpoint py_repr (v : PyVal) : string :=
  match v with
  | PyNone => "None"
  | PyBool true => "True"
  | PyBool false => "False"
  | PyInt n => repr_int n
  | PyStr s => repr_str s
  | PyList items => "[" ++ join ", " (map py_repr items) ++ "]"
  | PyDict entries =>
      "{" ++ join ", "
        ((fix entries_repr (es : list (PyVal * PyVal)) : list string :=
            match es with
            | [] => []
            | (k, v) :: es' =>
                (py_repr k ++ ": " ++ py_repr v) :: entries_repr es'
            end) entries) ++ "}"
  end.

(** [str(v)], which is what an f-string field [{v}] formats to: the text
    itself for a string, [repr] for everything else of the model. *)
Definition py_str (v : PyVal) : string :=
  match v with
  | PyStr s => s
  | _ => py_repr v
  end.

(** *** Dicts

    A Python dict keeps its keys in the order of their first insertion;
    assigning to a key that is already present replaces the value and keeps
    the key and its position. *)

Fixpoint dict_get {K V : Type} (eqb : K -> K -> bool)
    (d : list (K * V)) (k : K) : option V :=
  match d with
  | [] => None
  | (k', v) :: d' => if eqb k' k then Some v else dict_get eqb d' k
  end.

Fixpoint dict_set {K V : Type} (eqb : K -> K -> bool)
    (d : list (K * V)) (k : K) (v : V) : list (K * V) :=
  match d with
  | [] => [(k, v)]
  | (k', v') :: d' =>
      if eqb k' k then (k', v) :: d' else (k', v') :: dict_set eqb d' k v
  end.

(** Lists and dicts cannot be dict keys. *)
Definition hashable (k : PyVal) : bool :=
  match k with
  | PyList _ | PyDict _ => false
  | _ => true
  end.

(** Equality of hashable keys; [True == 1] and [False == 0]. *)
Definition key_eqb (a b : PyVal) : bool :=
  match a, b with
  | PyNone, PyNone => true
  | PyBool x, PyBool y => Bool.eqb x y
  | PyInt x, PyInt y => Z.eqb x y
  | PyBool x, PyInt y => Z.eqb (if x then 1 else 0) y
  | PyInt x, PyBool y => Z.eqb x (if y then 1 else 0)
  | PyStr x, PyStr y => String.eqb x y
  | _, _ => false
  end.

(** [v[key]] for a string [key]: a lookup in a dict, a [TypeError] on
    every other value of the model. *)
Definition py_getitem (v : PyVal) (key : string) : Res PyVal :=
  match v with
  | PyDict d =>
      match dict_get key_eqb d (PyStr key) with
      | Some x => Ok x
      | None => Raise (KeyError (PyStr key))
      end
  | _ => Raise TypeError
  end.

(** [d[k] = v] on a dict of Python values. *)
Definition py_setitem (d : list (PyVal * PyVal)) (k v : PyVal)
  : Res (list (PyVal * PyVal)) :=
  if hashable k then Ok (dict_set key_eqb d k v) else Raise TypeError.

(** [lst[0]]. *)
Definition list_getitem0 {A : Type} (lst : list A) : Res A :=
  match lst with
  | x :: _ => Ok x
  | [] => Raise IndexError
  end.

(** Unpacking [v] as keyword arguments of a call: [v] has to be a dict whose keys are all strings. *)
Fixpoint kwargs_of_entries (d : list (PyVal * PyVal))
  : Res (list (string * PyVal)) :=
  match d with
  | [] => Ok []
  | (PyStr k, v) :: d' =>
      match kwargs_of_entries d' with
      | Ok kw => Ok ((k, v) :: kw)
      | Raise e => Raise e
      end
  | _ :: _ => Raise TypeError
  end.

Definition as_kwargs (v : PyVal) : Res (list (string * PyVal)) :=
  match v with
  | PyDict d => kwargs_of_entries d
  | _ => Raise TypeError
  end.

(** ** Messages and conversation buffers *)

Record Message : Type := { role : string; content : string }.

(** Modelled from the spec: [utils/completions.py] is not among the
    sources.  A message holds a role and a content; with a tag the content
    is wrapped as the example session of [REACT_SYSTEM_PROMPT] shows for
    the question. *)
Definition build_prompt_structure (prompt role tag : string) : Message :=
  {| role := role;
     content := match tag with
                | EmptyString => prompt
                | _ => "<" ++ tag ++ ">" ++ prompt ++ "</" ++ tag ++ ">"
                end |}.

(** The two flavours of buffer answer the same [append]. *)
Class History (H : Type) : Type := {
  append : H -> Message -> H;
  messages : H -> list Message
}.

(** Modelled from the spec: [ChatHistory] of [utils/completions.py], used
    as the unbounded flavour of the conversation buffer. *)
Definition ChatHistory : Type := list Message.

#[export] Instance ChatHistory_History : History ChatHistory := {
  append h m := (h ++ [m])%list;
  messages h := h
}.

(** Modelled from the spec: [FixedFirstChatHistory] of
    [utils/completions.py], the capped flavour: once the buffer has reached
    [total_length], the oldest message after the first is dropped before
    each append. *)
Record FixedFirstChatHistory : Type := {
  ff_messages : list Message;
  total_length : nat
}.

Definition drop_second {A : Type} (l : list A) : list A :=
  match l with
  | x :: _ :: rest => x :: rest
  | _ => l
  end.

#[export] Instance FixedFirst_History : History FixedFirstChatHistory := {
  append h m :=
    {| ff_messages :=
         ((if (total_length h <=? length (ff_messages h))%nat
           then drop_second (ff_messages h) else ff_messages h) ++ [m])%list;
       total_length := total_length h |};
  messages h := ff_messages h
}.

(** Modelled from the spec: [update_chat_history] of
    [utils/completions.py] appends the text as a turn of the given role. *)
Definition update_chat_history {H : Type} `{History H}
    (history : H) (msg role : string) : H :=
  append history (build_prompt_structure msg role "").

(** The result of [extract_tag_content]. *)
Module TagContentResult.
Record t : Type := {
  content : list string;
  found : bool
}.
End TagContentResult.

(** ** The world, its trace, and the effect monad

    [W] is the state of everything outside the program: the model provider
    and whatever the tools touch.  The trace is a ghost record of the calls
    that left the program, in order. *)

Definition Kwargs : Type := list (string * PyVal).

Inductive Event : Type :=
| EvCompletion (site : string) (msgs : list Message) (model : string)
| EvToolRun (name : string) (kwargs : Kwargs).

Record St (W : Type) : Type := { world : W; trace : list Event }.
Arguments world {W} s.
Arguments trace {W} s.

(** A statement either yields a value or raises; the state reached so far
    stays in both cases. *)
Definition M (W A : Type) : Type := St W -> Res A * St W.

Definition ret {W A : Type} (a : A) : M W A := fun s => (Ok a, s).

Definition bind {W A B : Type} (m : M W A) (k : A -> M W B) : M W B :=
  fun s =>
    match m s with
    | (Ok a, s') => k a s'
    | (Raise e, s') => (Raise e, s')
    end.

Definition lift {W A : Type} (r : Res A) : M W A := fun s => (r, s).

Notation "x <- m ;; k" := (bind m (fun x => k))
  (at level 61, m at next level, right associativity).

Definition is_completion (e : Event) : bool :=
  match e with EvCompletion _ _ _ => true | EvToolRun _ _ => false end.

Definition is_tool_run (e : Event) : bool :=
  match e with EvToolRun _ _ => true | EvCompletion _ _ _ => false end.

Definition completions_of (t : list Event) : list Event :=
  filter is_completion t.

(** ** Tools and collaborators *)

Module Tool.
(** Modelled from the spec: the class [Tool] of [tool_pattern/tool.py] is
    not among the sources; the agent reads [name] and [fn_signature] and
    calls [run] with keyword arguments, which returns the function's result
    or raises. *)
Record t (W : Type) : Type := {
  name : string;
  fn_signature : string;
  run : Kwargs -> W -> Res PyVal * W
}.
Arguments name {W} _.
Arguments fn_signature {W} _.
Arguments run {W} _ _ _.
End Tool.

(** What the two agents import from outside the sources: the completion
    request, the tag extractor, [json.loads] and the argument validator. *)
Class Collaborators (W : Type) : Type := {
  completions_create :
    string -> list Message -> string -> W -> Res string * W;
  extract_tag_content : string -> string -> TagContentResult.t;
  json_loads : string -> Res PyVal;
  validate_arguments : PyVal -> PyVal -> Res PyVal
}.

Section Effects.
Context {W : Type} {C : Collaborators W}.

(** A completion request: recorded in the trace, then answered by the
    provider. *)
Definition request_completion (site client : string) (msgs : list Message)
    (model : string) : M W string :=
  fun s =>
    let '(r, w') := completions_create client msgs model (world s) in
    (r, {| world := w';
           trace := (trace s ++ [EvCompletion site msgs model])%list |}).

(** [tool.run] on keyword arguments: recorded in the trace, then executed. *)
Definition run_tool (tool : Tool.t W) (kwargs : Kwargs) : M W PyVal :=
  fun s =>
    let '(r, w') := Tool.run tool kwargs (world s) in
    (r, {| world := w';
           trace := (trace s ++ [EvToolRun (Tool.name tool) kwargs])%list |}).

End Effects.

(** ** Environment *)

(** [os.getenv]: the process environment after [load_dotenv()]. *)
Definition Environ : Type := string -> option string.

(** [not api_key]: the variable is unset or empty. *)
Definition falsy_opt (v : option string) : bool :=
  match v with
  | None | Some EmptyString => true
  | Some _ => false
  end.

Definition API_KEY_REQUIRED : string :=
  "DEEPSEEK_API_KEY environment variable is required. Please set it in your .env file or environment.".

(** ** [planning_pattern/react_agent.py] *)

Definition BASE_SYSTEM_PROMPT : string := "".

Definition REACT_SYSTEM_PROMPT : string :=
  lines
    [ "";
      "You operate by running a loop with the following steps: Thought, Action, Observation.";
      "You are provided with function signatures within <tools></tools> XML tags.";
      "You may call one or more functions to assist with the user query. Don' make assumptions about what values to plug";
      "into functions. Pay special attention to the properties 'types'. You should use those types as in a Python dict.";
      "";
      "For each function call return a json object with function name and arguments within <tool_call></tool_call> XML tags as follows:";
      "";
      "<tool_call>";
      dq "{`name`: <function-name>,`arguments`: <args-dict>, `id`: <monotonically-increasing-id>}";
      "</tool_call>";
      "";
      "Here are the available tools / actions:";
      "";
      "<tools>";
      "%s";
      "</tools>";
      "";
      "Example session:";
      "";
      "<question>What's the current temperature in Madrid?</question>";
      "<thought>I need to get the current weather in Madrid</thought>";
      dq "<tool_call>{`name`: `get_current_weather`,`arguments`: {`location`: `Madrid`, `unit`: `celsius`}, `id`: 0}</tool_call>";
      "";
      "You will be called again with this:";
      "";
      dq "<observation>{0: {`temperature`: 25, `unit`: `celsius`}}</observation>";
      "";
      "You then output:";
      "";
      "<response>The current temperature in Madrid is 25 degrees Celsius</response>";
      "";
      "Additional constraints:";
      "";
      "- If the user asks you something unrelated to any of the tools above, answer freely enclosing your answer with <response></response> tags.";
      "" ].

Module ReactAgent.
Section WithCollaborators.
Context {W : Type} {C : Collaborators W}.

Record t : Type := {
  client : string;
  model : string;
  system_prompt : string;
  tools : list (Tool.t W);
  tools_dict : list (string * Tool.t W)
}.

(** [{tool.name: tool for tool in self.tools}] *)
Definition build_tools_dict (tools : list (Tool.t W))
  : list (string * Tool.t W) :=
  fold_left (fun d tool => dict_set String.eqb d (Tool.name tool) tool)
    tools [].

(** [tools] is one tool or a list of tools. *)
Definition __init__ (getenv : Environ) (tools : Tool.t W + list (Tool.t W))
    (model system_prompt : string) : M W t :=
  let api_key := getenv "DEEPSEEK_API_KEY" in
  if falsy_opt api_key then lift (Raise (ValueError API_KEY_REQUIRED))
  else
    let tools := match tools with inl tool => [tool] | inr l => l end in
    ret {| client := match api_key with Some k => k | None => "" end;
           model := model;
           system_prompt := system_prompt;
           tools := tools;
           tools_dict := build_tools_dict tools |}.

Definition add_tool_signatures (self : t) : string :=
  join "" (map Tool.fn_signature (tools self)).

(** [self.tools_dict[tool_name]] *)
Definition tools_dict_getitem (self : t) (tool_name : PyVal)
  : Res (Tool.t W) :=
  if hashable tool_name then
    match tool_name with
    | PyStr n =>
        match dict_get String.eqb (tools_dict self) n with
        | Some tool => Ok tool
        | None => Raise (KeyError tool_name)
        end
    | _ => Raise (KeyError tool_name)
    end
  else Raise TypeError.

(** What the loop of [process_tool_calls] has in hand when it calls
    [tool.run]. *)
Record Decoded : Type := {
  d_tool : Tool.t W;
  d_validated : PyVal;
  d_kwargs : Kwargs
}.

(** The statements of the loop body of [process_tool_calls] up to the call
    of [tool.run]; none of them leaves the program. *)
Definition decode_tool_call (self : t) (tool_call_str : string)
  : Res Decoded :=
  res_bind (json_loads tool_call_str) (fun tool_call =>
  res_bind (py_getitem tool_call "name") (fun tool_name =>
  res_bind (tools_dict_getitem self tool_name) (fun tool =>
  res_bind (json_loads (Tool.fn_signature tool)) (fun signature =>
  res_bind (validate_arguments tool_call signature) (fun validated_tool_call =>
  res_bind (py_getitem validated_tool_call "arguments") (fun arguments =>
  res_bind (as_kwargs arguments) (fun kwargs =>
  Ok {| d_tool := tool;
        d_validated := validated_tool_call;
        d_kwargs := kwargs |}))))))).

(** The body of the [for] loop of [process_tool_calls], for one call. *)
Definition process_tool_call (self : t)
    (observations : list (PyVal * PyVal)) (tool_call_str : string)
  : M W (list (PyVal * PyVal)) :=
  d <- lift (decode_tool_call self tool_call_str) ;;
  result <- run_tool (d_tool d) (d_kwargs d) ;;
  id <- lift (py_getitem (d_validated d) "id") ;;
  lift (py_setitem observations id result).

(** The [for] loop of [process_tool_calls], from the observations
    collected so far. *)
Fixpoint process_tool_calls_from (self : t)
    (observations : list (PyVal * PyVal)) (tool_calls_content : list string)
  : M W (list (PyVal * PyVal)) :=
  match tool_calls_content with
  | [] => ret observations
  | tool_call_str :: rest =>
      observations' <- process_tool_call self observations tool_call_str ;;
      process_tool_calls_from self observations' rest
  end.

Definition process_tool_calls (self : t) (tool_calls_content : list string)
  : M W (list (PyVal * PyVal)) :=
  process_tool_calls_from self [] tool_calls_content.

(** How one round of the loop of [run] ends: with [return], or by going
    on with the buffer it leaves. *)
Inductive Round : Type :=
| Return (answer : string)
| Next (chat_history : ChatHistory).

(** The body of the [for] loop of [run].  What [print] writes is console
    output and is not part of the state; the field [thought.content[0]] of
    the printed text is evaluated, and raises on an empty list. *)
Definition react_round (self : t) (chat_history : ChatHistory)
  : M W Round :=
  completion <-
    request_completion "ReactAgent.run" (client self)
      (messages chat_history) (model self) ;;
  let response := extract_tag_content completion "response" in
  if TagContentResult.found response then
    answer <- lift (list_getitem0 (TagContentResult.content response)) ;;
    ret (Return answer)
  else
    let thought := extract_tag_content completion "thought" in
    let tool_calls := extract_tag_content completion "tool_call" in
    let chat_history := update_chat_history chat_history completion "assistant" in
    _ <- lift (list_getitem0 (TagContentResult.content thought)) ;;
    if TagContentResult.found tool_calls then
      observations <- process_tool_calls self (TagContentResult.content tool_calls) ;;
      ret (Next (update_chat_history chat_history
                   (py_str (PyDict observations)) "user"))
    else ret (Next chat_history).

(** [for _ in range(max_rounds)] *)
Fixpoint react_rounds (self : t) (rounds : nat) (chat_history : ChatHistory)
  : M W Round :=
  match rounds with
  | O => ret (Next chat_history)
  | S rounds' =>
      r <- react_round self chat_history ;;
      match r with
      | Return answer => ret (Return answer)
      | Next chat_history' => react_rounds self rounds' chat_history'
      end
  end.

(** The block that [run] appends to [self.system_prompt]. *)
Definition react_block (self : t) : string :=
  String newline EmptyString
  ++ percent_format REACT_SYSTEM_PROMPT (add_tool_signatures self).

(** The agent after the first statements of [run]. *)
Definition with_react_prompt (self : t) : t :=
  match tools self with
  | [] => self
  | _ :: _ =>
      {| client := client self;
         model := model self;
         system_prompt := system_prompt self ++ react_block self;
         tools := tools self;
         tools_dict := tools_dict self |}
  end.

(** The buffer that [run] starts from. *)
Definition seed_history (self : t) (user_msg : string) : ChatHistory :=
  [ build_prompt_structure (system_prompt self) "system" "";
    build_prompt_structure user_msg "user" "question" ].

(** [run]: the value returned or the exception raised, the agent as [run]
    leaves it, and the state reached. *)
Definition run (self : t) (user_msg : string) (max_rounds : Z)
  : St W -> Res string * t * St W :=
  fun s =>
    let self := with_react_prompt self in
    let chat_history := seed_history self user_msg in
    let loop :=
      match tools self with
      | _ :: _ => react_rounds self (Z.to_nat max_rounds) chat_history
      | [] => ret (Next chat_history)
      end in
    let '(r, s') :=
      (r <- loop ;;
       match r with
       | Return answer => ret answer
       | Next chat_history' =>
           request_completion "ReactAgent.run" (client self)
             (messages chat_history') (model self)
       end) s in
    (r, self, s').

End WithCollaborators.
Arguments t W : clear implicits.
End ReactAgent.

(** ** [reflection_pattern/reflection_agent.py] *)

Definition BASE_GENERATION_SYSTEM_PROMPT : string :=
  lines
    [ "";
      "Your task is to Generate the best content possible for the user's request.";
      "If the user provides critique, respond with a revised version of your previous attempt.";
      "You must always output the revised content.";
      "" ].

Definition BASE_REFLECTION_SYSTEM_PROMPT : string :=
  lines
    [ "";
      "You are tasked with generating critique and recommendations to the user's generated content.";
      "If the user content has something wrong or something to be improved, output a list of recommendations";
      "and critiques. If the user content is ok and there's nothing to change, output this: <OK>";
      "" ].

Module ReflectionAgent.
Section WithCollaborators.
Context {W : Type} {C : Collaborators W}.

Record t : Type := {
  client : string;
  model : string
}.

Definition __init__ (getenv : Environ) (model : string) : M W t :=
  let api_key := getenv "DEEPSEEK_API_KEY" in
  if falsy_opt api_key then lift (Raise (ValueError API_KEY_REQUIRED))
  else
    ret {| client := match api_key with Some k => k | None => "" end;
           model := model |}.

(** [_request_completion]; what it prints under [verbose] is console
    output and is not part of the state. *)
Definition _request_completion (self : t) (history : list Message)
    (verbose : Z) (log_title log_color : string) : M W string :=
  request_completion log_title (client self) history (model self).

Definition generate (self : t) (generation_history : list Message)
    (verbose : Z) : M W string :=
  _request_completion self generation_history verbose "GENERATION" "BLUE".

Definition reflect (self : t) (reflection_history : list Message)
    (verbose : Z) : M W string :=
  _request_completion self reflection_history verbose "REFLECTION" "GREEN".

(** The local variables of [run] that the loop reads and writes;
    [generation] is unbound until the first draft. *)
Record Locals : Type := {
  generation : option string;
  generation_history : FixedFirstChatHistory;
  reflection_history : FixedFirstChatHistory
}.

(** How one step of the loop ends: with [break], or by going on. *)
Inductive Step : Type :=
| Break (l : Locals)
| Continue (l : Locals).

(** The body of the [for] loop of [run]; the progress display and the
    messages printed are console output and are not part of the state. *)
Definition reflection_step (self : t) (verbose : Z) (l : Locals)
  : M W Step :=
  draft <- generate self (messages (generation_history l)) verbose ;;
  let generation_history :=
    update_chat_history (generation_history l) draft "assistant" in
  let reflection_history :=
    update_chat_history (reflection_history l) draft "user" in
  critique <- reflect self (messages reflection_history) verbose ;;
  if str_contains "<OK>" critique then
    ret (Break {| generation := Some draft;
                  generation_history := generation_history;
                  reflection_history := reflection_history |})
  else
    ret (Continue
           {| generation := Some draft;
              generation_history :=
                update_chat_history generation_history critique "user";
              reflection_history :=
                update_chat_history reflection_history critique "assistant" |}).

(** [for step in range(n_steps)] *)
Fixpoint reflection_steps (self : t) (verbose : Z) (steps : nat) (l : Locals)
  : M W Locals :=
  match steps with
  | O => ret l
  | S steps' =>
      r <- reflection_step self verbose l ;;
      match r with
      | Break l' => ret l'
      | Continue l' => reflection_steps self verbose steps' l'
      end
  end.

(** The locals of [run] when the loop starts. *)
Definition initial_locals (user_msg generation_system_prompt
    reflection_system_prompt : string) : Locals :=
  {| generation := None;
     generation_history :=
       {| ff_messages :=
            [ build_prompt_structure
                (generation_system_prompt ++ BASE_GENERATION_SYSTEM_PROMPT)
                "system" "";
              build_prompt_structure user_msg "user" "" ];
          total_length := 3 |};
     reflection_history :=
       {| ff_messages :=
            [ build_prompt_structure
                (reflection_system_prompt ++ BASE_REFLECTION_SYSTEM_PROMPT)
                "system" "" ];
          total_length := 3 |} |}.

(** [run] up to its [return]: the locals when the loop is left. *)
Definition run_locals (self : t) (user_msg generation_system_prompt
    reflection_system_prompt : string) (n_steps verbose : Z) : M W Locals :=
  reflection_steps self verbose (Z.to_nat n_steps)
    (initial_locals user_msg generation_system_prompt
       reflection_system_prompt).

(** [run]; [return generation] raises when no step has bound it. *)
Definition run (self : t) (user_msg generation_system_prompt
    reflection_system_prompt : string) (n_steps verbose : Z) : M W string :=
  l <- run_locals self user_msg generation_system_prompt
         reflection_system_prompt n_steps verbose ;;
  match generation l with
  | Some draft => ret draft
  | None => lift (Raise UnboundLocalError)
  end.

End WithCollaborators.
End ReflectionAgent.

(** ** The crew scheduler *)

Module Crew.

(** Modelled from the spec: [multiagent_pattern/agent.py] is not among the
    sources.  An agent node has a name, a backstory, a task, a description
    of the output expected, and the nodes it has to run after; a node is
    referred to by its id, which is its creation index in the crew.  The
    dependents of a node are the inverse of the dependencies and are read
    off them; the context and the output of a node live in the run. *)
Record AgentNode : Type := {
  name : string;
  backstory : string;
  task_description : string;
  task_expected_output : string;
  dependencies : list nat
}.

(** The three colours of the traversal. *)
Inductive Color : Type := Unvisited | InProgress | Finished.

Definition Marking : Type := nat -> Color.

Definition mark (m : Marking) (u : nat) (c : Color) : Marking :=
  fun v => if Nat.eqb v u then c else m v.

Definition unvisited (c : Color) : bool :=
  match c with Unvisited => true | _ => false end.

(** Modelled from the spec: step 1 of the scheduler of
    [multiagent_pattern/crew.py], which is not among the sources.  The
    graph is built from the dependencies of every registered node; an edge
    leads from a node to a registered node it depends on. *)
Definition edges_of (nodes : list AgentNode) (u : nat) : list nat :=
  match nth_error nodes u with
  | Some a => filter (fun v => v <? length nodes)%nat (dependencies a)
  | None => []
  end.

(** How a traversal ends; [OutOfFuel] is the bound of the recursion of this
    embedding and is shown below never to be reached. *)
Inductive Dfs : Type :=
| BackEdge
| Visited (m : Marking)
| OutOfFuel.

(** The visits of a list of nodes, one after the other, until one does
    not come back. *)
Fixpoint visit_list (visit1 : nat -> Marking -> Dfs) (vs : list nat)
    (m : Marking) : Dfs :=
  match vs with
  | [] => Visited m
  | v :: vs' =>
      match visit1 v m with
      | Visited m' => visit_list visit1 vs' m'
      | other => other
      end
  end.

(** Modelled from the spec: step 2 of the scheduler, the depth-first
    traversal with three colours; an edge to a node in progress is a back
    edge. *)
Fixpoint visit (fuel : nat) (nodes : list AgentNode) (u : nat) (m : Marking)
  : Dfs :=
  match fuel with
  | O => OutOfFuel
  | S fuel' =>
      match m u with
      | InProgress => BackEdge
      | Finished => Visited m
      | Unvisited =>
          match visit_list (visit fuel' nodes) (edges_of nodes u)
                  (mark m u InProgress) with
          | Visited m' => Visited (mark m' u Finished)
          | other => other
          end
      end
  end.

(** Modelled from the spec: step 2 of the scheduler, from every registered
    node in creation order, all nodes unvisited at first. *)
Definition detect_cycle (nodes : list AgentNode) : Dfs :=
  visit_list (visit (S (length nodes)) nodes) (seq 0 (length nodes))
    (fun _ => Unvisited).

Definition mem (u : nat) (l : list nat) : bool := existsb (Nat.eqb u) l.

(** A node that has not run and whose dependencies have all run. *)
Definition ready (nodes : list AgentNode) (done : list nat) (u : nat)
  : bool :=
  negb (mem u done) && forallb (fun v => mem v done) (edges_of nodes u).

(** Modelled from the spec: step 3 of the scheduler.  Among the nodes that
    are ready, the one created first is next. *)
Fixpoint schedule (fuel : nat) (nodes : list AgentNode) (done : list nat)
  : list nat :=
  match fuel with
  | O => []
  | S fuel' =>
      match find (ready nodes done) (seq 0 (length nodes)) with
      | Some u => u :: schedule fuel' nodes (done ++ [u])%list
      | None => []
      end
  end.

Definition topological_order (nodes : list AgentNode) : list nat :=
  schedule (length nodes) nodes [].

(** The state of a crew run: the world, and the ids of the nodes whose
    [run] was invoked, in order. *)
Record CrewSt (W : Type) : Type := { c_world : W; invoked : list nat }.
Arguments c_world {W} c.
Arguments invoked {W} c.

Section Run.
Context {W : Type}.

(** The run of one node: the node and its context, the outputs of its
    dependencies labelled with the names of their nodes. *)
Variable run_node :
  AgentNode -> list (string * string) -> W -> Res string * W.

Definition node_name (nodes : list AgentNode) (u : nat) : string :=
  match nth_error nodes u with
  | Some a => name a
  | None => ""
  end.

(** The context of node [u]: the outputs, in the order in which they were
    produced, of the nodes [u] depends on. *)
Definition context_of (nodes : list AgentNode) (u : nat)
    (outputs : list (nat * string)) : list (string * string) :=
  map (fun o => (node_name nodes (fst o), snd o))
    (filter (fun o => mem (fst o) (edges_of nodes u)) outputs).

(** Modelled from the spec: steps 4 and 5 of the scheduler.  The nodes run
    one at a time in the given order; a failure ends the run without a
    result mapping. *)
Fixpoint execute (nodes : list AgentNode) (order : list nat)
    (outputs : list (nat * string)) (results : list (string * string))
    (c : CrewSt W) : Res (list (string * string)) * CrewSt W :=
  match order with
  | [] => (Ok results, c)
  | u :: order' =>
      match nth_error nodes u with
      | None => (Raise (NodeExecutionError ""), c)
      | Some a =>
          let '(r, w') := run_node a (context_of nodes u outputs) (c_world c) in
          let c' := {| c_world := w'; invoked := (invoked c ++ [u])%list |} in
          match r with
          | Ok output =>
              execute nodes order' (outputs ++ [(u, output)])%list
                (dict_set String.eqb results (name a) output) c'
          | Raise _ => (Raise (NodeExecutionError (name a)), c')
          end
      end
  end.

(** Modelled from the spec: the run of the crew, which is also what
    leaving the scope does. *)
Definition run (nodes : list AgentNode) (c : CrewSt W)
  : Res (list (string * string)) * CrewSt W :=
  match detect_cycle nodes with
  | BackEdge => (Raise CyclicDependencyError, c)
  | _ => execute nodes (topological_order nodes) [] [] c
  end.

Definition scope_exit (nodes : list AgentNode) (c : CrewSt W)
  : Res (list (string * string)) * CrewSt W :=
  run nodes c.

End Run.

(** [depends_on nodes u v]: the registered node [u] declares a dependency
    on [v]. *)
Definition depends_on (nodes : list AgentNode) (u v : nat) : Prop :=
  exists a, nth_error nodes u = Some a /\ In v (dependencies a).

(** The declared dependencies contain a cycle. *)
Definition has_cycle (nodes : list AgentNode) : Prop :=
  exists u, clos_trans nat (depends_on nodes) u u.

End Crew.

(** ** The wire format the specification gives for observations

    The specification describes the observation turn as a JSON object that
    maps each call id, as a string key, to the tool's return value.
    [observation_json] is that reading, following [json.dumps]: it is
    compared below with what [run] appends. *)

Definition json_char (c : ascii) : string :=
  let n := nat_of_ascii c in
  if Ascii.eqb c dquote then String "\"%char (String dquote EmptyString)
  else if Ascii.eqb c "\"%char then "\\"
  else if Ascii.eqb c newline then "\n"
  else if Ascii.eqb c "013"%char then "\r"
  else if Ascii.eqb c "009"%char then "\t"
  else if ((32 <=? n) && (n <? 128))%nat then String c EmptyString
  else
    "\u00" ++ String (hex_digit (n / 16)%nat)
                (String (hex_digit (n mod 16)%nat) EmptyString).

Definition json_str (s : string) : string :=
  String dquote (join "" (map json_char (list_ascii_of_string s))
                 ++ String dquote EmptyString).

(** The text of a key of a JSON object. *)
Definition json_key (k : PyVal) : string :=
  match k with
  | PyStr s => json_str s
  | PyInt n => json_str (repr_int n)
  | PyBool true => json_str "true"
  | PyBool false => json_str "false"
  | _ => json_str "null"
  end.

Fixpoint json_dumps (v : PyVal) : string :=
  match v with
  | PyNone => "null"
  | PyBool true => "true"
  | PyBool false => "false"
  | PyInt n => repr_int n
  | PyStr s => json_str s
  | PyList items => "[" ++ join ", " (map json_dumps items) ++ "]"
  | PyDict entries =>
      "{" ++ join ", "
        ((fix members (es : list (PyVal * PyVal)) : list string :=
            match es with
            | [] => []
            | (k, v) :: es' =>
                (json_key k ++ ": " ++ json_dumps v) :: members es'
            end) entries) ++ "}"
  end.

Definition observation_json (observations : list (PyVal * PyVal)) : string :=
  json_dumps (PyDict observations).

(** ** Concrete collaborators for the examples *)

Module Stub.

(** *** A reader for the JSON of the examples

    [json_loads] reads the fragment of JSON made of objects, arrays,
    strings without escape sequences, integers, [true], [false] and [null],
    as [json.loads] does; any other text is reported as a decoding
    error. *)

Definition is_ws (c : ascii) : bool :=
  Ascii.eqb c " "%char || Ascii.eqb c newline
  || Ascii.eqb c "013"%char || Ascii.eqb c "009"%char.

Fixpoint skip_ws (s : string) : string :=
  match s with
  | String c s' => if is_ws c then skip_ws s' else s
  | EmptyString => s
  end.

Definition is_digit (c : ascii) : bool :=
  let n := nat_of_ascii c in ((48 <=? n) && (n <=? 57))%nat.

Fixpoint take_digits (acc : Z) (s : string) : Z * string :=
  match s with
  | String c s' =>
      if is_digit c
      then take_digits (acc * 10 + Z.of_nat (nat_of_ascii c - 48)) s'
      else (acc, s)
  | EmptyString => (acc, s)
  end.

(** A number without sign: [0], or a digit other than [0] followed by
    digits; a fraction or an exponent is outside the fragment. *)
Definition take_natural (s : string) : option (Z * string) :=
  match s with
  | String c s' =>
      if Ascii.eqb c "0"%char then Some (0%Z, s')
      else if is_digit c then Some (take_digits 0 s)
      else None
  | EmptyString => None
  end.

Definition no_fraction (s : string) : bool :=
  match s with
  | String c _ =>
      negb (Ascii.eqb c "."%char || Ascii.eqb c "e"%char
            || Ascii.eqb c "E"%char)
  | EmptyString => true
  end.

(** The text up to the closing quote, and what follows it. *)
Fixpoint take_plain_string (s : string) : option (string * string) :=
  match s with
  | EmptyString => None
  | String c s' =>
      if Ascii.eqb c dquote then Some (EmptyString, s')
      else if Ascii.eqb c "\"%char || (nat_of_ascii c <? 32)%nat then None
      else
        match take_plain_string s' with
        | Some (str, rest) => Some (String c str, rest)
        | None => None
        end
  end.

Definition take_literal (s : string) : option (PyVal * string) :=
  match strip_prefix "true" s with
  | Some r => Some (PyBool true, r)
  | None =>
  match strip_prefix "false" s with
  | Some r => Some (PyBool false, r)
  | None =>
  match strip_prefix "null" s with
  | Some r => Some (PyNone, r)
  | None =>
  match s with
  | String c s' =>
      match (if Ascii.eqb c "-"%char then take_natural s'
             else take_natural s) with
      | Some (n, r) =>
          if no_fraction r
          then Some (PyInt (if Ascii.eqb c "-"%char then - n else n)%Z, r)
          else None
      | None => None
      end
  | EmptyString => None
  end end end end.

Fixpoint parse_value (fuel : nat) (s : string) : option (PyVal * string) :=
  match fuel with
  | O => None
  | S fuel' =>
      match skip_ws s with
      | EmptyString => None
      | String c r =>
          if Ascii.eqb c "{"%char then
            match skip_ws r with
            | String c' r' =>
                if Ascii.eqb c' "}"%char then Some (PyDict [], r')
                else parse_members fuel' (String c' r') []
            | EmptyString => None
            end
          else if Ascii.eqb c "["%char then
            match skip_ws r with
            | String c' r' =>
                if Ascii.eqb c' "]"%char then Some (PyList [], r')
                else parse_elements fuel' (String c' r') []
            | EmptyString => None
            end
          else if Ascii.eqb c dquote then
            match take_plain_string r with
            | Some (str, r') => Some (PyStr str, r')
            | None => None
            end
          else take_literal (String c r)
      end
  end
with parse_elements (fuel : nat) (s : string) (acc : list PyVal)
  : option (PyVal * string) :=
  match fuel with
  | O => None
  | S fuel' =>
      match parse_value fuel' s with
      | Some (v, r) =>
          match skip_ws r with
          | String c r' =>
              if Ascii.eqb c ","%char
              then parse_elements fuel' r' (acc ++ [v])%list
              else if Ascii.eqb c "]"%char
              then Some (PyList (acc ++ [v])%list, r')
              else None
          | EmptyString => None
          end
      | None => None
      end
  end
with parse_members (fuel : nat) (s : string) (acc : list (PyVal * PyVal))
  : option (PyVal * string) :=
  match fuel with
  | O => None
  | S fuel' =>
      match skip_ws s with
      | String q r =>
          if Ascii.eqb q dquote then
            match take_plain_string r with
            | Some (k, r1) =>
                match skip_ws r1 with
                | String c r2 =>
                    if Ascii.eqb c ":"%char then
                      match parse_value fuel' r2 with
                      | Some (v, r3) =>
                          let acc' := dict_set key_eqb acc (PyStr k) v in
                          match skip_ws r3 with
                          | String c' r4 =>
                              if Ascii.eqb c' ","%char
                              then parse_members fuel' r4 acc'
                              else if Ascii.eqb c' "}"%char
                              then Some (PyDict acc', r4)
                              else None
                          | EmptyString => None
                          end
                      | None => None
                      end
                    else None
                | EmptyString => None
                end
            | None => None
            end
          else None
      | EmptyString => None
      end
  end.

Definition json_loads (s : string) : Res PyVal :=
  match parse_value (2 * String.length s + 2) s with
  | Some (v, r) =>
      match skip_ws r with
      | EmptyString => Ok v
      | String _ _ => Raise JSONDecodeError
      end
  | None => Raise JSONDecodeError
  end.

(** *** Tag extraction *)

(** The text after the last occurrence of [open] in [text]. *)
Fixpoint after_last (open text : string) : option string :=
  match text with
  | EmptyString => strip_prefix open text
  | String _ text' =>
      match after_last open text' with
      | Some r => Some r
      | None => strip_prefix open text
      end
  end.

(** The texts between each close tag and the last open tag before it, in
    order of appearance. *)
Fixpoint tag_bodies (fuel : nat) (open close text : string) : list string :=
  match fuel with
  | O => []
  | S fuel' =>
      match split_at close text with
      | None => []
      | Some (before, rest) =>
          match after_last open before with
          | Some body => body :: tag_bodies fuel' open close rest
          | None => tag_bodies fuel' open close rest
          end
      end
  end.

(** Modelled from the spec: [extract_tag_content] of [utils/extraction.py]
    is not among the sources.  The contents are the raw texts strictly
    between the innermost matching open and close tags, in order of
    appearance; [found] says whether there is any. *)
Definition extract_tag_content (text tag : string) : TagContentResult.t :=
  let bodies :=
    tag_bodies (S (String.length text))
      ("<" ++ tag ++ ">") ("</" ++ tag ++ ">") text in
  {| TagContentResult.content := bodies;
     TagContentResult.found := match bodies with [] => false | _ :: _ => true end |}.

(** *** Argument validation *)

(** Whether a value has the type a parameter declares. *)
Definition type_matches (declared : PyVal) (v : PyVal) : bool :=
  match py_getitem declared "type", v with
  | Ok (PyStr "int"), PyInt _ => true
  | Ok (PyStr "int"), _ => false
  | Ok (PyStr "str"), PyStr _ => true
  | Ok (PyStr "str"), _ => false
  | Ok (PyStr "bool"), PyBool _ => true
  | Ok (PyStr "bool"), _ => false
  | _, _ => true
  end.

Definition argument_ok (properties : list (PyVal * PyVal))
    (arg : PyVal * PyVal) : bool :=
  match dict_get key_eqb properties (fst arg) with
  | Some declared => type_matches declared (snd arg)
  | None => false
  end.

Definition parameter_given (arguments : list (PyVal * PyVal))
    (param : PyVal * PyVal) : bool :=
  match dict_get key_eqb arguments (fst param) with
  | Some _ => true
  | None => false
  end.

(** Modelled from the spec: [validate_arguments] of [tool_pattern/tool.py]
    is not among the sources.  Every argument of the call has to be a
    declared parameter with a value of the declared type, and every declared
    parameter has to be given; the call is returned as it is.  The declared
    parameters are read at [parameters.properties] of the signature, as in
    the signatures of the tests. *)
Definition validate_arguments (tool_call signature : PyVal) : Res PyVal :=
  match py_getitem signature "parameters" with
  | Raise e => Raise e
  | Ok parameters =>
  match py_getitem parameters "properties", py_getitem tool_call "arguments" with
  | Ok (PyDict properties), Ok (PyDict arguments) =>
      if forallb (argument_ok properties) arguments
         && forallb (parameter_given arguments) properties
      then Ok tool_call
      else Raise ArgumentError
  | Raise e, _ => Raise e
  | _, Raise e => Raise e
  | _, _ => Raise TypeError
  end end.

(** *** A scripted model

    The world is the number of completion requests answered so far; the
    model answers the [n]-th request with the [n]-th text of its script and
    fails once the script is used up. *)

Definition scripted (script : list string)
    (client : string) (msgs : list Message) (model : string) (w : nat)
  : Res string * nat :=
  (match nth_error script w with
   | Some completion => Ok completion
   | None => Raise (ExternalError "the script is used up")
   end, S w).

Definition collaborators (script : list string) : Collaborators nat :=
  Build_Collaborators nat
    (scripted script) extract_tag_content json_loads validate_arguments.

(** *** The tools of [test_react_agent.py] *)

Definition int_arg (kwargs : Kwargs) (k : string) : Res Z :=
  match dict_get String.eqb kwargs k with
  | Some (PyInt n) => Ok n
  | _ => Raise TypeError
  end.

Definition binary_int_tool (name : string) (f : Z -> Z -> Z)
  : Tool.t nat :=
  {| Tool.name := name;
     Tool.fn_signature :=
       dq "{`name`: `" ++ name
       ++ dq "`, `parameters`: {`properties`: {`a`: {`type`: `int`}, `b`: {`type`: `int`}}}}";
     Tool.run := fun kwargs w =>
       (match int_arg kwargs "a", int_arg kwargs "b" with
        | Ok a, Ok b => Ok (PyInt (f a b))
        | Raise e, _ => Raise e
        | _, Raise e => Raise e
        end, w) |}.

Definition sum_two_elements : Tool.t nat :=
  binary_int_tool "sum_two_elements" Z.add.

Definition multiply_two_elements : Tool.t nat :=
  binary_int_tool "multiply_two_elements" Z.mul.

(** An environment that holds the credential, and one that does not. *)
Definition environ_with_key : Environ :=
  fun k => if String.eqb k "DEEPSEEK_API_KEY" then Some "sk-test" else None.

Definition environ_without_key : Environ := fun _ => None.

Definition initial_state : St nat := {| world := 0; trace := [] |}.

(** *** Agents and completions of the examples *)

(** An agent without tools. *)
Definition plain_agent : ReactAgent.t nat :=
  {| ReactAgent.client := "sk-test";
     ReactAgent.model := "deepseek-chat";
     ReactAgent.system_prompt := BASE_SYSTEM_PROMPT;
     ReactAgent.tools := [];
     ReactAgent.tools_dict := [] |}.

(** The agent of [test_react_agent.py], with two of its tools. *)
Definition calculator : ReactAgent.t nat :=
  {| ReactAgent.client := "sk-test";
     ReactAgent.model := "deepseek-chat";
     ReactAgent.system_prompt := BASE_SYSTEM_PROMPT;
     ReactAgent.tools := [sum_two_elements; multiply_two_elements];
     ReactAgent.tools_dict :=
       ReactAgent.build_tools_dict
         [sum_two_elements; multiply_two_elements] |}.

Definition call_sum_id0 : string :=
  dq "{`name`: `sum_two_elements`, `arguments`: {`a`: 1, `b`: 2}, `id`: 0}".

Definition call_mul_id0 : string :=
  dq "{`name`: `multiply_two_elements`, `arguments`: {`a`: 4, `b`: 5}, `id`: 0}".

Definition call_sum_id1 : string :=
  dq "{`name`: `sum_two_elements`, `arguments`: {`a`: 7, `b`: 8}, `id`: 1}".

Definition call_divide : string :=
  dq "{`name`: `divide`, `arguments`: {`a`: 1, `b`: 2}, `id`: 1}".

Definition question : string := "What is 1 + 2?".

(** The agent and the buffer after the first statements of [run]. *)
Definition calculator' : ReactAgent.t nat :=
  ReactAgent.with_react_prompt calculator.

Definition seed : ChatHistory := ReactAgent.seed_history calculator' question.

Definition assistant_turn (text : string) : Message :=
  {| role := "assistant"; content := text |}.

Definition user_turn (text : string) : Message :=
  {| role := "user"; content := text |}.

Definition request (msgs : list Message) : Event :=
  EvCompletion "ReactAgent.run" msgs "deepseek-chat".

(** *** Crews

    The cyclic declaration of the specification, A -> B -> A, and its
    chain A -> B -> C, where an arrow leads from a node to the node that
    runs after it. *)

Definition cyclic_crew : list Crew.AgentNode :=
  [ {| Crew.name := "A"; Crew.backstory := "";
       Crew.task_description := "first"; Crew.task_expected_output := "";
       Crew.dependencies := [1%nat] |};
    {| Crew.name := "B"; Crew.backstory := "";
       Crew.task_description := "second"; Crew.task_expected_output := "";
       Crew.dependencies := [0%nat] |} ].

Definition chain_crew : list Crew.AgentNode :=
  [ {| Crew.name := "C"; Crew.backstory := "";
       Crew.task_description := "third"; Crew.task_expected_output := "";
       Crew.dependencies := [2%nat] |};
    {| Crew.name := "A"; Crew.backstory := "";
       Crew.task_description := "first"; Crew.task_expected_output := "";
       Crew.dependencies := [] |};
    {| Crew.name := "B"; Crew.backstory := "";
       Crew.task_description := "second"; Crew.task_expected_output := "";
       Crew.dependencies := [1%nat] |} ].

(** A node whose output is its name after the outputs it was given. *)
Definition echo_node (a : Crew.AgentNode) (context : list (string * string))
    (w : nat) : Res string * nat :=
  (Ok (join "" (map snd context) ++ "OUT_" ++ Crew.name a), S w).

Definition crew_start : Crew.CrewSt nat :=
  {| Crew.c_world := 0; Crew.invoked := [] |}.

(** A completion with three calls whose ids are 0, 1 and 0 again. *)
Definition thought_and_three_calls : string :=
  "<thought>I should add, add and multiply</thought><tool_call>"
  ++ call_sum_id0 ++ "</tool_call><tool_call>"
  ++ call_sum_id1 ++ "</tool_call><tool_call>"
  ++ call_mul_id0 ++ "</tool_call>".

(** The signatures of the two tools of [calculator], as the text that the
    prompt receives. *)
Definition calculator_signatures : string :=
  dq "{`name`: `sum_two_elements`, `parameters`: {`properties`: {`a`: {`type`: `int`}, `b`: {`type`: `int`}}}}{`name`: `multiply_two_elements`, `parameters`: {`properties`: {`a`: {`type`: `int`}, `b`: {`type`: `int`}}}}".

(** A second tool registered under the name of the first. *)
Definition sum_impostor : Tool.t nat :=
  binary_int_tool "sum_two_elements" Z.mul.

(** A tool that raises whenever it is run. *)
Definition always_fails : Tool.t nat :=
  {| Tool.name := "always_fails";
     Tool.fn_signature :=
       dq "{`name`: `always_fails`, `parameters`: {`properties`: {}}}";
     Tool.run := fun _ w => (Raise (ExternalError "boom"), S w) |}.

(** An agent with the tools of the tests and the failing tool. *)
Definition workshop : ReactAgent.t nat :=
  {| ReactAgent.client := "sk-test";
     ReactAgent.model := "deepseek-chat";
     ReactAgent.system_prompt := BASE_SYSTEM_PROMPT;
     ReactAgent.tools :=
       [sum_two_elements; multiply_two_elements; always_fails];
     ReactAgent.tools_dict :=
       ReactAgent.build_tools_dict
         [sum_two_elements; multiply_two_elements; always_fails] |}.

Definition call_fails : string :=
  dq "{`name`: `always_fails`, `arguments`: {}, `id`: 2}".

Definition call_without_id : string :=
  dq "{`name`: `sum_two_elements`, `arguments`: {`a`: 1, `b`: 2}}".

Definition call_list_id : string :=
  dq "{`name`: `sum_two_elements`, `arguments`: {`a`: 1, `b`: 2}, `id`: [0]}".

Definition call_missing_argument : string :=
  dq "{`name`: `sum_two_elements`, `arguments`: {`a`: 1}, `id`: 3}".

Definition call_malformed : string := "{name: sum_two_elements}".

Definition response_and_sum : string :=
  "<response>It is 3</response><tool_call>"
  ++ call_sum_id0 ++ "</tool_call>".

(** The state after the sum of the examples has run. *)
Definition after_sum : St nat :=
  {| world := 0%nat;
     trace := [EvToolRun "sum_two_elements"
                 [("a", PyInt 1); ("b", PyInt 2)]] |}.

(** An environment in which the credential is set to the empty string. *)
Definition environ_empty_key : Environ :=
  fun k => if String.eqb k "DEEPSEEK_API_KEY" then Some "" else None.

(** A reflection agent. *)
Definition reflector : ReflectionAgent.t :=
  {| ReflectionAgent.client := "sk-test";
     ReflectionAgent.model := "deepseek-chat" |}.

Definition thought_only : string :=
  "<thought>I should add the numbers</thought>".

Definition thought_and_sum : string :=
  "<thought>I should add the numbers</thought><tool_call>"
  ++ call_sum_id0 ++ "</tool_call>".

Definition thought_sum_and_divide : string :=
  "<thought>I should add, then divide</thought><tool_call>"
  ++ call_sum_id0 ++ "</tool_call><tool_call>"
  ++ call_divide ++ "</tool_call>".

End Stub.

(** ** Notions of the proofs about the scheduler *)

Module CrewNotions.
Section Graph.
Import Crew.

Variable nodes : list AgentNode.

(** An edge of the graph of step 1. *)
Definition edge (u v : nat) : Prop := In v (edges_of nodes u).

(** Finished nodes only lead to finished nodes. *)
Definition closed (m : Marking) : Prop :=
  forall u v, m u = Finished -> edge u v -> m v = Finished.

(** No finished node lies on a cycle. *)
Definition finished_acyclic (m : Marking) : Prop :=
  forall u, m u = Finished -> ~ clos_trans nat edge u u.

(** From [m] to [m'] the only change is that unvisited nodes may have
    become finished. *)
Definition advances (m m' : Marking) : Prop :=
  forall w, m' w = m w \/ (m w = Unvisited /\ m' w = Finished).

(** The invariant of the traversal and what a visit adds to it. *)
Definition sound (f : nat -> Marking -> Dfs) : Prop :=
  forall u m m',
    f u m = Visited m' -> closed m -> finished_acyclic m ->
    m' u = Finished /\ closed m' /\ finished_acyclic m'.

(** The registered nodes that are still unvisited. *)
Definition whites (m : Marking) : nat :=
  length (filter (fun u => unvisited (m u)) (seq 0 (length nodes))).

(** [f] comes back from every registered node as long as fewer than [k]
    nodes are unvisited. *)
Definition enough (k : nat) (f : nat -> Marking -> Dfs) : Prop :=
  forall u m,
    (u < length nodes)%nat -> (whites m < k)%nat -> f u m <> OutOfFuel.

End Graph.
End CrewNotions.

(** ** Notions used in the statements *)

(** [extends s s' evs]: [s'] is reached from [s] by the calls [evs]. *)
Definition extends {W : Type} (s s' : St W) (evs : list Event) : Prop :=
  trace s' = (trace s ++ evs)%list.

Section Notions.
Context {W : Type} {C : Collaborators W}.

(** The state right after the completion request of a round over the
    buffer [h]. *)
Definition after_request (self : ReactAgent.t W) (h : ChatHistory)
    (s : St W) : St W :=
  {| world :=
       snd (completions_create (ReactAgent.client self) h
              (ReactAgent.model self) (world s));
     trace :=
       (trace s
        ++ [EvCompletion "ReactAgent.run" h (ReactAgent.model self)])%list |}.

(** One executed tool call: the tool, its keyword arguments, the id the
    call carries and what the tool returned. *)
Record Execution : Type := {
  x_name : string;
  x_kwargs : Kwargs;
  x_id : PyVal;
  x_result : PyVal
}.

Definition execution_event (x : Execution) : Event :=
  EvToolRun (x_name x) (x_kwargs x).

(** [runs_calls self calls w xs w']: the calls are decoded and their tools
    run one after the other in the order of the list, each in the world the
    one before left, from [w] to [w']; [xs] are the executions, in that
    order. *)
Inductive runs_calls (self : ReactAgent.t W)
  : list string -> W -> list Execution -> W -> Prop :=
| runs_nil w : runs_calls self [] w [] w
| runs_cons call calls d w result id xs w' :
    ReactAgent.decode_tool_call self call = Ok d ->
    fst (Tool.run (ReactAgent.d_tool d) (ReactAgent.d_kwargs d) w)
      = Ok result ->
    py_getitem (ReactAgent.d_validated d) "id" = Ok id ->
    hashable id = true ->
    runs_calls self calls
      (snd (Tool.run (ReactAgent.d_tool d) (ReactAgent.d_kwargs d) w))
      xs w' ->
    runs_calls self (call :: calls) w
      ({| x_name := Tool.name (ReactAgent.d_tool d);
          x_kwargs := ReactAgent.d_kwargs d;
          x_id := id;
          x_result := result |} :: xs) w'.

(** The observations after the executions [xs], from [obs]: one dict
    assignment per execution, keyed by its id. *)
Definition record_observations (xs : list Execution)
    (obs : list (PyVal * PyVal)) : list (PyVal * PyVal) :=
  fold_left (fun d x => dict_set key_eqb d (x_id x) (x_result x)) xs obs.

(** The result of the last execution whose id equals [k]. *)
Fixpoint last_result (k : PyVal) (xs : list Execution) : option PyVal :=
  match xs with
  | [] => None
  | x :: xs' =>
      match last_result k xs' with
      | Some r => Some r
      | None => if key_eqb (x_id x) k then Some (x_result x) else None
      end
  end.

End Notions.

(** The lines of [REACT_SYSTEM_PROMPT] that take the tool signatures, and
    the text of the prompt before and after them. *)
Definition tools_slot : string :=
  lines [ "<tools>"; "%s"; "</tools>" ].

Definition REACT_HEAD : string :=
  match split_at tools_slot REACT_SYSTEM_PROMPT with
  | Some (before, _) => before
  | None => ""
  end.

Definition REACT_TAIL : string :=
  match split_at tools_slot REACT_SYSTEM_PROMPT with
  | Some (_, after) => after
  | None => ""
  end.

(** The state after the tool of a decoded call has been run from [s]. *)
Definition after_tool {W : Type} (d : ReactAgent.Decoded (W := W))
    (s : St W) : St W :=
  {| world :=
       snd (Tool.run (ReactAgent.d_tool d) (ReactAgent.d_kwargs d) (world s));
     trace :=
       (trace s
        ++ [EvToolRun (Tool.name (ReactAgent.d_tool d))
              (ReactAgent.d_kwargs d)])%list |}.

(** A turn that the ReAct loop appends. *)
Definition turn_role_ok (m : Message) : Prop :=
  role m = "assistant" \/ role m = "user".

(** The locals a step of the reflection loop hands on. *)
Definition step_locals (st : ReflectionAgent.Step) : ReflectionAgent.Locals :=
  match st with
  | ReflectionAgent.Break l | ReflectionAgent.Continue l => l
  end.

(** A capped buffer in order: its cap is three, it holds at most three
    messages, and its first message is [sys]. *)
Definition capped_buffer (sys : Message) (h : FixedFirstChatHistory) : Prop :=
  total_length h = 3%nat
  /\ (length (ff_messages h) <= 3)%nat
  /\ hd_error (ff_messages h) = Some sys.

(** The site of a completion request; a tool run has none. *)
Definition site_of (e : Event) : string :=
  match e with
  | EvCompletion site _ _ => site
  | EvToolRun _ _ => ""
  end.

(** The sites of the requests of [n] full steps of the reflection loop. *)
Fixpoint reflection_sites (n : nat) : list string :=
  match n with
  | O => []
  | S n' => "GENERATION" :: "REFLECTION" :: reflection_sites n'
  end.

(** A request of the reflection loop that respects the cap: at most three
    messages, the first of which is the system message of its buffer. *)
Definition capped_request (generation_system reflection_system : Message)
    (e : Event) : Prop :=
  match e with
  | EvCompletion site msgs _ =>
      (length msgs <= 3)%nat
      /\ hd_error msgs
         = Some (if String.eqb site "GENERATION"
                 then generation_system else reflection_system)
  | EvToolRun _ _ => False
  end.

(** The ids of a list in the order in which they are first seen: an id
    equal, as a dict key, to an earlier one is left out. *)
Fixpoint first_seen (ids : list PyVal) : list PyVal :=
  match ids with
  | [] => []
  | k :: rest =>
      k :: filter (fun k' => negb (key_eqb k k')) (first_seen rest)
  end.

(** The result of the last execution that carried the id [k]. *)
Definition result_for (k : PyVal) (xs : list Execution) : PyVal :=
  match last_result k xs with
  | Some r => r
  | None => PyNone
  end.

(** The observation dict that the executions [xs] leave, entry by entry:
    the ids in the order in which they were first seen, each with the
    result of the last execution that carried it. *)
Definition observations_of (xs : list Execution) : list (PyVal * PyVal) :=
  map (fun k => (k, result_for k xs)) (first_seen (map x_id xs)).

(** No key of [K] equals [y]. *)
Definition notin (K : list PyVal) (y : PyVal) : bool :=
  negb (existsb (fun k0 => key_eqb k0 y) K).

(** No two keys of the list are equal. *)
Fixpoint distinct_keys (l : list PyVal) : Prop :=
  match l with
  | [] => True
  | k :: rest =>
      (forall y, In y rest -> key_eqb k y = false) /\ distinct_keys rest
  end.

(** The last tool of a list that carries the name [n]. *)
Definition last_named {W : Type} (n : string) (tools : list (Tool.t W))
  : option (Tool.t W) :=
  find (fun tool => String.eqb (Tool.name tool) n) (rev tools).

(* ===================================================================== *)
(** * Part II: properties *)
(* ===================================================================== *)

(** ** The effect monad *)

Lemma bind_ok {W A B : Type} (m : M W A) (k : A -> M W B) s a s' :
  m s = (Ok a, s') -> bind m k s = k a s'.
Proof. intros H. unfold bind. now rewrite H. Qed.

Lemma bind_raise {W A B : Type} (m : M W A) (k : A -> M W B) s e s' :
  m s = (Raise e, s') -> bind m k s = (Raise e, s').
Proof. intros H. unfold bind. now rewrite H. Qed.

Lemma extends_refl {W : Type} (s : St W) : extends s s [].
Proof. unfold extends. now rewrite app_nil_r. Qed.

Lemma extends_trans {W : Type} (s1 s2 s3 : St W) e1 e2 :
  extends s1 s2 e1 -> extends s2 s3 e2 -> extends s1 s3 (e1 ++ e2)%list.
Proof. unfold extends. intros H1 H2. now rewrite H2, H1, app_assoc. Qed.

Lemma completions_of_app (a b : list Event) :
  completions_of (a ++ b) = (completions_of a ++ completions_of b)%list.
Proof. apply filter_app. Qed.

(** ** Text *)

Lemma string_app_assoc (a b c : string) : (a ++ b) ++ c = a ++ (b ++ c).
Proof. induction a as [|x a IH]; simpl; [reflexivity|now rewrite IH]. Qed.

(** ** Dict keys *)

Lemma key_eqb_sym (a b : PyVal) : key_eqb a b = key_eqb b a.
Proof.
  destruct a as [|[]|x|x|x|x], b as [|[]|y|y|y|y];
    cbv beta iota delta [key_eqb]; try reflexivity;
    try apply Z.eqb_sym; try apply String.eqb_sym.
Qed.

Lemma key_eqb_trans (a b c : PyVal) :
  key_eqb a b = true -> key_eqb b c = true -> key_eqb a c = true.
Proof.
  destruct a as [|[]|x|x|x|x], b as [|[]|y|y|y|y], c as [|[]|z|z|z|z];
    cbv beta iota delta [key_eqb]; try discriminate; try reflexivity;
    rewrite ?Z.eqb_eq, ?String.eqb_eq; intros; subst;
    try reflexivity; try discriminate; try congruence.
Qed.

(** Reading a dict after an assignment. *)
Lemma dict_get_set (d : list (PyVal * PyVal)) (k v k' : PyVal) :
  dict_get key_eqb (dict_set key_eqb d k v) k' =
    if key_eqb k k' then Some v else dict_get key_eqb d k'.
Proof.
  induction d as [|[k0 v0] d IH]; simpl.
  - reflexivity.
  - destruct (key_eqb k0 k) eqn:E0; simpl.
    + destruct (key_eqb k0 k') eqn:E1.
      * rewrite key_eqb_sym in E0.
        now rewrite (key_eqb_trans _ _ _ E0 E1).
      * destruct (key_eqb k k') eqn:E2; [|reflexivity].
        now rewrite (key_eqb_trans _ _ _ E0 E2) in E1.
    + destruct (key_eqb k0 k') eqn:E1; [|exact IH].
      destruct (key_eqb k k') eqn:E2; [|reflexivity].
      rewrite key_eqb_sym in E2.
      now rewrite (key_eqb_trans _ _ _ E1 E2) in E0.
Qed.

Section ReactProperties.
Context {W : Type} {C : Collaborators W}.
Import ReactAgent.

Implicit Types (self : ReactAgent.t W) (s : St W).

(** *** Requests and tool runs, one at a time *)

Lemma request_completion_spec site client msgs model s :
  request_completion site client msgs model s =
    (fst (completions_create client msgs model (world s)),
     {| world := snd (completions_create client msgs model (world s));
        trace := (trace s ++ [EvCompletion site msgs model])%list |}).
Proof.
  unfold request_completion.
  now destruct (completions_create client msgs model (world s)).
Qed.

Lemma run_tool_spec (tool : Tool.t W) kwargs s :
  run_tool tool kwargs s =
    (fst (Tool.run tool kwargs (world s)),
     {| world := snd (Tool.run tool kwargs (world s));
        trace := (trace s ++ [EvToolRun (Tool.name tool) kwargs])%list |}).
Proof.
  unfold run_tool. now destruct (Tool.run tool kwargs (world s)).
Qed.

(** One call runs at most one tool and requests no completion. *)
Lemma process_tool_call_extends self obs call s r s' :
  process_tool_call self obs call s = (r, s') ->
  exists evs, extends s s' evs /\ forallb is_tool_run evs = true.
Proof.
  unfold process_tool_call. unfold bind at 1. unfold lift at 1.
  destruct (decode_tool_call self call) as [d|e].
  - unfold bind at 1. rewrite run_tool_spec.
    destruct (fst (Tool.run (d_tool d) (d_kwargs d) (world s))) as [v|e].
    + unfold bind, lift.
      destruct (py_getitem (d_validated d) "id");
        intros H; inversion H; subst; eexists; split;
          try reflexivity; reflexivity.
    + intros H; inversion H; subst. eexists; split; reflexivity.
  - intros H; inversion H; subst. exists []. split; [apply extends_refl|easy].
Qed.

Lemma process_tool_calls_from_extends self calls : forall obs s r s',
  process_tool_calls_from self obs calls s = (r, s') ->
  exists evs, extends s s' evs /\ forallb is_tool_run evs = true.
Proof.
  induction calls as [|call calls IH]; intros obs s r s' H; simpl in H.
  - inversion H; subst. exists []. split; [apply extends_refl|easy].
  - unfold bind in H.
    destruct (process_tool_call self obs call s) as [[obs'|e] s1] eqn:E1.
    + destruct (process_tool_call_extends _ _ _ _ _ _ E1) as (e1 & X1 & F1).
      destruct (IH _ _ _ _ H) as (e2 & X2 & F2).
      exists (e1 ++ e2)%list. split; [eapply extends_trans; eauto|].
      rewrite forallb_app, F1, F2. reflexivity.
    + inversion H; subst.
      exact (process_tool_call_extends _ _ _ _ _ _ E1).
Qed.

Lemma process_tool_calls_extends self calls s r s' :
  process_tool_calls self calls s = (r, s') ->
  exists evs, extends s s' evs /\ forallb is_tool_run evs = true.
Proof. apply process_tool_calls_from_extends. Qed.

(** One round requests exactly one completion, first, and then only runs
    tools. *)
Lemma react_round_extends self h s r s' :
  react_round self h s = (r, s') ->
  exists evs,
    extends s s' (EvCompletion "ReactAgent.run" h (model self) :: evs)
    /\ forallb is_tool_run evs = true.
Proof.
  unfold react_round. unfold bind at 1. rewrite request_completion_spec.
  simpl messages.
  destruct (fst (completions_create (client self) h (model self) (world s)))
    as [completion|e].
  - destruct (TagContentResult.found (extract_tag_content completion "response")).
    + unfold bind, lift, ret.
      destruct (list_getitem0 _); intros H; inversion H; subst;
        exists []; split; reflexivity.
    + unfold bind at 1. unfold lift at 1.
      destruct (list_getitem0 (TagContentResult.content (extract_tag_content completion "thought"))).
      * destruct (TagContentResult.found (extract_tag_content completion "tool_call")).
        -- unfold bind.
           destruct (process_tool_calls self _ _) as [[obs|e] s1] eqn:E1;
             destruct (process_tool_calls_extends _ _ _ _ _ E1) as (evs & X & F);
             unfold ret; intros H; inversion H; subst;
             exists evs; (split; [|exact F]);
             unfold extends in *; rewrite X; simpl;
             now rewrite <- app_assoc.
        -- unfold ret. intros H; inversion H; subst.
           exists []; split; reflexivity.
      * intros H; inversion H; subst. exists []; split; reflexivity.
  - intros H; inversion H; subst. exists []; split; reflexivity.
Qed.

(** The rounds of a loop that runs out: as many completions as rounds. *)
Lemma react_rounds_next_count self n : forall h s h' s',
  react_rounds self n h s = (Ok (Next h'), s') ->
  exists evs,
    extends s s' evs
    /\ length (completions_of evs) = n.
Proof.
  induction n as [|n IH]; intros h s h' s' H; simpl in H.
  - inversion H; subst. exists []. split; [apply extends_refl|reflexivity].
  - unfold bind in H.
    destruct (react_round self h s) as [[[a|h1]|e] s1] eqn:E1;
      try discriminate.
    destruct (react_round_extends _ _ _ _ _ E1) as (e1 & X1 & F1).
    destruct (IH _ _ _ _ H) as (e2 & X2 & L2).
    eexists. split; [eapply extends_trans; eauto|].
    rewrite completions_of_app. simpl.
    assert (completions_of e1 = []) as ->.
    { clear - F1. induction e1 as [|[ | ] e1 IHe]; simpl in *;
        try discriminate; auto. }
    simpl. now rewrite L2.
Qed.

(** Rounds compose: [a + b] rounds are [a] rounds and then, unless one of
    them returned, [b] more. *)
Lemma react_rounds_add self a b : forall h s,
  react_rounds self (a + b) h s =
    (r <- react_rounds self a h ;;
     match r with
     | Return answer => ret (Return answer)
     | Next h' => react_rounds self b h'
     end) s.
Proof.
  induction a as [|a IH]; intros h s; simpl.
  - reflexivity.
  - unfold bind.
    destruct (react_round self h s) as [[[ans|h1]|e] s1]; try reflexivity.
    rewrite IH. reflexivity.
Qed.

(** *** The prologue of [run] *)

Lemma with_react_prompt_tools self :
  tools (with_react_prompt self) = tools self.
Proof.
  unfold with_react_prompt. destruct (tools self) eqn:E; simpl; congruence.
Qed.

Lemma with_react_prompt_client self :
  client (with_react_prompt self) = client self.
Proof. unfold with_react_prompt. now destruct (tools self). Qed.

Lemma with_react_prompt_model self :
  model (with_react_prompt self) = model self.
Proof. unfold with_react_prompt. now destruct (tools self). Qed.

Lemma with_react_prompt_no_tools self :
  tools self = [] -> with_react_prompt self = self.
Proof. unfold with_react_prompt. now intros ->. Qed.

Lemma with_react_prompt_system_prompt self :
  tools self <> [] ->
  system_prompt (with_react_prompt self) =
    system_prompt self ++ react_block self.
Proof.
  unfold with_react_prompt. destruct (tools self); [congruence|reflexivity].
Qed.

(** [run] when the loop runs out of rounds, or is skipped: one more
    request, over the buffer the loop leaves. *)
Lemma run_after_loop self user_msg max_rounds s h' s1 :
  (match tools self with
   | _ :: _ =>
       react_rounds (with_react_prompt self) (Z.to_nat max_rounds)
         (seed_history (with_react_prompt self) user_msg)
   | [] => ret (Next (seed_history (with_react_prompt self) user_msg))
   end) s = (Ok (Next h'), s1) ->
  run self user_msg max_rounds s =
    (fst (completions_create (client self) h' (model self) (world s1)),
     with_react_prompt self,
     {| world :=
          snd (completions_create (client self) h' (model self) (world s1));
        trace :=
          (trace s1 ++ [EvCompletion "ReactAgent.run" h' (model self)])%list |}).
Proof.
  intros H. unfold run. rewrite with_react_prompt_tools.
  erewrite bind_ok by exact H.
  cbv beta iota. rewrite request_completion_spec.
  now rewrite with_react_prompt_client, with_react_prompt_model.
Qed.

(** [run] when a round raises: the exception leaves [run]. *)
Lemma run_round_raises self user_msg max_rounds s k h s1 e s2 :
  tools self <> [] ->
  (k < Z.to_nat max_rounds)%nat ->
  react_rounds (with_react_prompt self) k
    (seed_history (with_react_prompt self) user_msg) s = (Ok (Next h), s1) ->
  react_round (with_react_prompt self) h s1 = (Raise e, s2) ->
  run self user_msg max_rounds s = (Raise e, with_react_prompt self, s2).
Proof.
  intros NE LT Hk Hr. unfold run. rewrite with_react_prompt_tools.
  destruct (tools self) as [|t0 ts] eqn:ET; [congruence|].
  replace (Z.to_nat max_rounds)
    with (k + S (Z.to_nat max_rounds - S k))%nat by lia.
  erewrite bind_raise; [reflexivity|].
  rewrite react_rounds_add.
  erewrite bind_ok by exact Hk.
  simpl. erewrite bind_raise by exact Hr. reflexivity.
Qed.

(** ** Claims about [ReactAgent] *)

(** C7: an agent constructed with an empty tool set answers [run] with
    exactly one completion, requested over the seeded buffer (the system
    prompt as it is and the user question in [question] tags); that
    completion is what [run] returns; the system prompt is not augmented and
    no tool is run. *)
Theorem run_without_tools_single_completion self user_msg max_rounds s :
  tools self = [] ->
  let seed : list Message :=
    [ {| role := "system"; content := system_prompt self |};
      {| role := "user";
         content := "<question>" ++ user_msg ++ "</question>" |} ] in
  run self user_msg max_rounds s =
    (fst (completions_create (client self) seed (model self) (world s)),
     self,
     {| world :=
          snd (completions_create (client self) seed (model self) (world s));
        trace :=
          (trace s ++ [EvCompletion "ReactAgent.run" seed (model self)])%list |}).
Proof.
  intros NT seed.
  rewrite (run_after_loop self user_msg max_rounds s
             (seed_history self user_msg) s).
  - now rewrite with_react_prompt_no_tools.
  - rewrite NT, with_react_prompt_no_tools by exact NT. reflexivity.
Qed.

(** C1 (amended): when a [run] with tools goes through all [max_rounds]
    rounds without a [response] tag and without an exception, it requests
    one more completion, over the buffer the last round left, and returns
    the outcome of that request as it is; [run] has then requested
    [max_rounds + 1] completions. *)
Theorem run_exhausted_requests_one_more self user_msg max_rounds s h' s1 :
  tools self <> [] ->
  react_rounds (with_react_prompt self) (Z.to_nat max_rounds)
    (seed_history (with_react_prompt self) user_msg) s = (Ok (Next h'), s1) ->
  let final := completions_create (client self) h' (model self) (world s1) in
  let s2 :=
    {| world := snd final;
       trace := (trace s1 ++ [EvCompletion "ReactAgent.run" h' (model self)])%list |} in
  run self user_msg max_rounds s = (fst final, with_react_prompt self, s2)
  /\ length (completions_of (trace s2)) =
       (length (completions_of (trace s)) + Z.to_nat max_rounds + 1)%nat.
Proof.
  intros NE H final s2. split.
  - apply run_after_loop. destruct (tools self); [congruence|exact H].
  - destruct (react_rounds_next_count _ _ _ _ _ _ H) as (evs & X & L).
    unfold s2. simpl. unfold extends in X.
    rewrite X, !completions_of_app, !length_app, L. simpl. lia.
Qed.

(** Runs a round up to the evaluation of the thought, given the completion
    it receives ([Hc]) and that it has no [response] tag ([Hr]). *)
Ltac enter_round Hc Hr :=
  unfold react_round;
  unfold bind at 1; rewrite request_completion_spec; simpl messages;
  rewrite ?with_react_prompt_client, ?with_react_prompt_model;
  rewrite Hc, Hr; unfold bind at 1; unfold lift at 1.

(** A round whose completion has neither a [response] nor a [thought]. *)
Lemma react_round_missing_thought self h s completion :
  fst (completions_create (client self) h (model self) (world s))
    = Ok completion ->
  TagContentResult.found (extract_tag_content completion "response") = false ->
  TagContentResult.content (extract_tag_content completion "thought") = [] ->
  react_round self h s = (Raise IndexError, after_request self h s).
Proof.
  intros Hc Hr Ht. enter_round Hc Hr. rewrite Ht. reflexivity.
Qed.

Lemma after_request_with_react_prompt self h s :
  after_request (with_react_prompt self) h s = after_request self h s.
Proof.
  unfold after_request.
  now rewrite with_react_prompt_client, with_react_prompt_model.
Qed.

(** C9: in any round of a [run] with tools, a completion with no
    [response] tag and no [thought] tag makes [run] raise [IndexError],
    right after the request of that round; the round is not skipped and no
    later round takes place. *)
Theorem run_missing_thought_raises_IndexError
    self user_msg max_rounds s k h s1 completion :
  tools self <> [] ->
  (k < Z.to_nat max_rounds)%nat ->
  react_rounds (with_react_prompt self) k
    (seed_history (with_react_prompt self) user_msg) s = (Ok (Next h), s1) ->
  fst (completions_create (client self) h (model self) (world s1))
    = Ok completion ->
  TagContentResult.found (extract_tag_content completion "response") = false ->
  TagContentResult.content (extract_tag_content completion "thought") = [] ->
  run self user_msg max_rounds s =
    (Raise IndexError, with_react_prompt self, after_request self h s1).
Proof.
  intros NE LT Hk Hc Hr Ht.
  rewrite <- after_request_with_react_prompt.
  apply (run_round_raises self user_msg max_rounds s k h s1); auto.
  apply react_round_missing_thought with (completion := completion); auto.
  now rewrite with_react_prompt_client, with_react_prompt_model.
Qed.

(** [str] of a dict: the entries as [repr(key): repr(value)], in the
    order of the dict, between braces. *)
Lemma py_str_dict (entries : list (PyVal * PyVal)) :
  py_str (PyDict entries) =
    "{" ++ join ", "
             (map (fun kv => py_repr (fst kv) ++ ": " ++ py_repr (snd kv))
                entries) ++ "}".
Proof.
  simpl. do 3 f_equal.
  induction entries as [|[k v] es IH]; simpl; [reflexivity|].
  now rewrite IH.
Qed.

(** *** Tool calls *)

Lemma with_react_prompt_tools_dict self :
  tools_dict (with_react_prompt self) = tools_dict self.
Proof. unfold with_react_prompt. now destruct (tools self). Qed.

Lemma decode_with_react_prompt self call :
  decode_tool_call (with_react_prompt self) call = decode_tool_call self call.
Proof.
  unfold decode_tool_call, tools_dict_getitem.
  now rewrite with_react_prompt_tools_dict.
Qed.

Lemma process_tool_calls_from_with_react_prompt self calls : forall obs s,
  process_tool_calls_from (with_react_prompt self) obs calls s =
  process_tool_calls_from self obs calls s.
Proof.
  induction calls as [|c calls IH]; intros obs s; simpl; [reflexivity|].
  unfold bind, process_tool_call. rewrite decode_with_react_prompt.
  unfold bind.
  destruct (lift (decode_tool_call self c) s) as [[d|e] s1]; [|reflexivity].
  destruct (run_tool (d_tool d) (d_kwargs d) s1) as [[v|e] s2];
    [|reflexivity].
  destruct (lift (py_getitem (d_validated d) "id") s2) as [[i|e] s3];
    [|reflexivity].
  destruct (lift (py_setitem obs i v) s3) as [[o|e] s4]; [|reflexivity].
  apply IH.
Qed.

Lemma process_tool_calls_from_app self pre post : forall obs s,
  process_tool_calls_from self obs (pre ++ post) s =
    (obs1 <- process_tool_calls_from self obs pre ;;
     process_tool_calls_from self obs1 post) s.
Proof.
  induction pre as [|c pre IH]; intros obs s; simpl; [reflexivity|].
  unfold bind.
  destruct (process_tool_call self obs c s) as [[o|e] s1]; [|reflexivity].
  rewrite IH. reflexivity.
Qed.

(** A call that names no tool of [tools_dict] raises [KeyError] before
    anything leaves the program. *)
Lemma process_tool_call_unknown self obs call s tool_call name :
  json_loads call = Ok tool_call ->
  py_getitem tool_call "name" = Ok (PyStr name) ->
  dict_get String.eqb (tools_dict self) name = None ->
  process_tool_call self obs call s = (Raise (KeyError (PyStr name)), s).
Proof.
  intros Hj Hn Hd. unfold process_tool_call, decode_tool_call.
  rewrite Hj. simpl res_bind. rewrite Hn. simpl res_bind.
  unfold tools_dict_getitem. simpl hashable. cbv iota. rewrite Hd.
  reflexivity.
Qed.

Lemma process_tool_calls_unknown self pre call post s obs1 s1 tool_call name :
  process_tool_calls self pre s = (Ok obs1, s1) ->
  json_loads call = Ok tool_call ->
  py_getitem tool_call "name" = Ok (PyStr name) ->
  dict_get String.eqb (tools_dict self) name = None ->
  process_tool_calls self (pre ++ call :: post) s =
    (Raise (KeyError (PyStr name)), s1).
Proof.
  intros Hp Hj Hn Hd. unfold process_tool_calls in *.
  rewrite process_tool_calls_from_app.
  erewrite bind_ok by exact Hp. simpl.
  erewrite bind_raise; [reflexivity|].
  eapply process_tool_call_unknown; eauto.
Qed.

(** C5 (amended): in any round of a [run], a tool call whose name is a
    string that is no key of [tools_dict] raises Python's [KeyError] for
    that name (there is no [UnknownToolError]); the tools of the calls
    before it in the completion have run, no tool runs for this call or for
    the calls after it, and the exception leaves [run], which ends not only
    the round but the whole run. *)
Theorem unknown_tool_raises_KeyError
    self user_msg max_rounds s k h s1 completion
    pre call post obs1 s2 tool_call name :
  tools self <> [] ->
  (k < Z.to_nat max_rounds)%nat ->
  react_rounds (with_react_prompt self) k
    (seed_history (with_react_prompt self) user_msg) s = (Ok (Next h), s1) ->
  fst (completions_create (client self) h (model self) (world s1))
    = Ok completion ->
  TagContentResult.found (extract_tag_content completion "response") = false ->
  TagContentResult.content (extract_tag_content completion "thought") <> [] ->
  TagContentResult.found (extract_tag_content completion "tool_call") = true ->
  TagContentResult.content (extract_tag_content completion "tool_call")
    = (pre ++ call :: post)%list ->
  process_tool_calls self pre (after_request self h s1) = (Ok obs1, s2) ->
  json_loads call = Ok tool_call ->
  py_getitem tool_call "name" = Ok (PyStr name) ->
  dict_get String.eqb (tools_dict self) name = None ->
  process_tool_calls self (pre ++ call :: post) (after_request self h s1)
    = (Raise (KeyError (PyStr name)), s2)
  /\ run self user_msg max_rounds s =
       (Raise (KeyError (PyStr name)), with_react_prompt self, s2).
Proof.
  intros NE LT Hk Hc Hr Ht Hf Hcalls Hp Hj Hn Hd.
  assert (Hu := process_tool_calls_unknown self pre call post _ _ _ _ _
                  Hp Hj Hn Hd).
  split; [exact Hu|].
  apply (run_round_raises self user_msg max_rounds s k h s1); auto.
  enter_round Hc Hr.
  destruct (TagContentResult.content (extract_tag_content completion "thought"))
    as [|th ths]; [congruence|].
  simpl list_getitem0. cbv iota. rewrite Hf, Hcalls.
  erewrite bind_raise; [reflexivity|].
  unfold process_tool_calls.
  rewrite process_tool_calls_from_with_react_prompt. exact Hu.
Qed.

(** What a call that went through did. *)
Lemma process_tool_call_ok self obs call s obs1 s1 :
  process_tool_call self obs call s = (Ok obs1, s1) ->
  exists d result id,
    decode_tool_call self call = Ok d
    /\ fst (Tool.run (d_tool d) (d_kwargs d) (world s)) = Ok result
    /\ py_getitem (d_validated d) "id" = Ok id
    /\ hashable id = true
    /\ obs1 = dict_set key_eqb obs id result
    /\ world s1 = snd (Tool.run (d_tool d) (d_kwargs d) (world s))
    /\ trace s1 =
         (trace s ++ [EvToolRun (Tool.name (d_tool d)) (d_kwargs d)])%list.
Proof.
  unfold process_tool_call. unfold bind at 1. unfold lift at 1.
  destruct (decode_tool_call self call) as [d|e]; [|discriminate].
  unfold bind at 1. rewrite run_tool_spec.
  destruct (fst (Tool.run (d_tool d) (d_kwargs d) (world s)))
    as [result|e] eqn:ER; [|discriminate].
  unfold bind, lift.
  destruct (py_getitem (d_validated d) "id") as [id|e] eqn:EI;
    [|discriminate].
  unfold py_setitem. destruct (hashable id) eqn:EH; [|discriminate].
  intros H; inversion H; subst.
  exists d, result, id. simpl. auto 10.
Qed.

Lemma process_tool_calls_from_runs self calls : forall obs0 s obs s',
  process_tool_calls_from self obs0 calls s = (Ok obs, s') ->
  exists xs,
    runs_calls self calls (world s) xs (world s')
    /\ trace s' = (trace s ++ map execution_event xs)%list
    /\ obs = record_observations xs obs0.
Proof.
  induction calls as [|call calls IH]; intros obs0 s obs s' H; simpl in H.
  - inversion H; subst. exists []. simpl.
    rewrite app_nil_r. repeat split. constructor.
  - unfold bind in H.
    destruct (process_tool_call self obs0 call s) as [[obs1|e] s1] eqn:E1;
      [|discriminate].
    destruct (process_tool_call_ok _ _ _ _ _ _ E1)
      as (d & result & id & Hd & Hr & Hi & Hh & Ho & Hw & Ht).
    destruct (IH _ _ _ _ H) as (xs & R & T & O).
    exists ({| x_name := Tool.name (d_tool d); x_kwargs := d_kwargs d;
               x_id := id; x_result := result |} :: xs).
    repeat split.
    + econstructor; eauto. now rewrite <- Hw.
    + rewrite T, Ht. simpl. now rewrite <- app_assoc.
    + simpl. now rewrite <- Ho.
Qed.

Lemma record_observations_get (xs : list Execution) : forall obs k,
  dict_get key_eqb (record_observations xs obs) k =
    match last_result k xs with
    | Some r => Some r
    | None => dict_get key_eqb obs k
    end.
Proof.
  induction xs as [|x xs IH]; intros obs k; simpl; [reflexivity|].
  unfold record_observations in *. rewrite IH.
  destruct (last_result k xs); [reflexivity|].
  rewrite dict_get_set. now destruct (key_eqb (x_id x) k).
Qed.

(** *** The order of the observation dict *)

Lemma key_eqb_refl (k : PyVal) : hashable k = true -> key_eqb k k = true.
Proof.
  destruct k as [|[]|z|x|l|d]; simpl; try discriminate; intros _;
    auto using Z.eqb_refl, String.eqb_refl.
Qed.

Lemma keys_dict_set (d : list (PyVal * PyVal)) (k v : PyVal) :
  map fst (dict_set key_eqb d k v) =
    if notin (map fst d) k then (map fst d ++ [k])%list else map fst d.
Proof.
  unfold notin. induction d as [|[k0 v0] d IH]; simpl; [reflexivity|].
  destruct (key_eqb k0 k); simpl; [reflexivity|].
  rewrite IH. now destruct (existsb _ (map fst d)).
Qed.

Lemma filter_filter {A : Type} (p q : A -> bool) (l : list A) :
  filter p (filter q l) = filter (fun y => q y && p y) l.
Proof.
  induction l as [|x l IH]; simpl; [reflexivity|].
  destruct (q x); simpl; [destruct (p x)|]; now rewrite IH.
Qed.

Lemma filter_all {A : Type} (p : A -> bool) (l : list A) :
  (forall y, In y l -> p y = true) -> filter p l = l.
Proof.
  induction l as [|x l IH]; intros H; simpl; [reflexivity|].
  rewrite (H x (or_introl eq_refl)), IH; [reflexivity|].
  intros y Hy. apply H. now right.
Qed.

(** A key that equals a key of [K] is not new to [K], and neither is any
    key equal to it. *)
Lemma notin_false_trans (K : list PyVal) (k y : PyVal) :
  notin K k = false -> key_eqb k y = true -> notin K y = false.
Proof.
  unfold notin. rewrite !negb_false_iff, !existsb_exists.
  intros (k0 & I & E) Ey. exists k0. split; [exact I|].
  exact (key_eqb_trans _ _ _ E Ey).
Qed.

Lemma notin_snoc (K : list PyVal) (k y : PyVal) :
  notin (K ++ [k]) y = notin K y && negb (key_eqb k y).
Proof.
  unfold notin. rewrite existsb_app. simpl.
  rewrite orb_false_r. apply negb_orb.
Qed.

(** The keys after the executions [xs], from a dict [d]: the keys of [d],
    then the ids that are new to [d], in the order in which they are first
    seen. *)
Lemma keys_record_observations (xs : list Execution) :
  forall d : list (PyVal * PyVal),
    map fst (record_observations xs d) =
      (map fst d
       ++ filter (notin (map fst d)) (first_seen (map x_id xs)))%list.
Proof.
  unfold record_observations.
  induction xs as [|x xs IH]; intros d; simpl.
  - now rewrite app_nil_r.
  - rewrite IH, keys_dict_set.
    set (K := map fst d). set (F := first_seen (map x_id xs)).
    destruct (notin K (x_id x)) eqn:N.
    + rewrite <- app_assoc. simpl. do 2 f_equal.
      rewrite filter_filter. apply filter_ext. intros y.
      rewrite notin_snoc. apply andb_comm.
    + f_equal. rewrite filter_filter. apply filter_ext. intros y.
      destruct (notin K y) eqn:Ny; [|now rewrite andb_false_r].
      rewrite andb_true_r.
      destruct (key_eqb (x_id x) y) eqn:E; [|reflexivity].
      rewrite (notin_false_trans K _ _ N E) in Ny. discriminate.
Qed.

Lemma first_seen_incl (ids : list PyVal) (y : PyVal) :
  In y (first_seen ids) -> In y ids.
Proof.
  induction ids as [|k ids IH]; simpl; [auto|].
  intros [->|H]; [now left|].
  apply filter_In in H. right. apply IH. tauto.
Qed.

Lemma distinct_keys_filter (p : PyVal -> bool) (l : list PyVal) :
  distinct_keys l -> distinct_keys (filter p l).
Proof.
  induction l as [|k l IH]; simpl; [auto|]. intros (H & D).
  destruct (p k); simpl; [|auto]. split; [|auto].
  intros y Hy. apply H. apply filter_In in Hy. tauto.
Qed.

Lemma first_seen_distinct (ids : list PyVal) : distinct_keys (first_seen ids).
Proof.
  induction ids as [|k ids IH]; simpl; [exact I|]. split.
  - intros y Hy. apply filter_In in Hy. destruct Hy as (_ & N).
    now apply negb_true_iff in N.
  - now apply distinct_keys_filter.
Qed.

(** A dict whose keys are hashable and distinct is the list of its keys,
    each with the value a lookup gives. *)
Lemma dict_as_lookups (d : list (PyVal * PyVal)) :
  distinct_keys (map fst d) ->
  (forall k, In k (map fst d) -> hashable k = true) ->
  d = map (fun k => (k, match dict_get key_eqb d k with
                        | Some v => v
                        | None => PyNone
                        end)) (map fst d).
Proof.
  induction d as [|[k v] d IH]; simpl; [reflexivity|].
  intros (H & D) Hh.
  rewrite (key_eqb_refl k (Hh k (or_introl eq_refl))). f_equal.
  rewrite IH at 1 by (auto; intros; apply Hh; now right).
  apply map_ext_in. intros y Hy. now rewrite (H y Hy).
Qed.

Lemma runs_calls_hashable self calls w xs w' :
  runs_calls self calls w xs w' ->
  forall k, In k (map x_id xs) -> hashable k = true.
Proof.
  induction 1 as [|call calls d w result id xs w' Hd Hr Hi Hh R IH];
    simpl; intros k; [intros []|].
  intros [<-|H]; auto.
Qed.

(** What [process_tool_calls] returns, entry by entry. *)
Lemma record_observations_entries self calls w xs w' :
  runs_calls self calls w xs w' ->
  record_observations xs [] = observations_of xs.
Proof.
  intros R.
  assert (K : map fst (record_observations xs [])
              = first_seen (map x_id xs)).
  { rewrite keys_record_observations. simpl.
    apply filter_all. reflexivity. }
  rewrite (dict_as_lookups (record_observations xs [])).
  - rewrite K. unfold observations_of. apply map_ext. intros k.
    unfold result_for. rewrite record_observations_get.
    now destruct (last_result k xs).
  - rewrite K. apply first_seen_distinct.
  - rewrite K. intros k Hk.
    exact (runs_calls_hashable _ _ _ _ _ R k (first_seen_incl _ _ Hk)).
Qed.

(** C4 (amended): in a round that found a thought and tool calls and ran
    them all, the buffer gains the completion as an assistant turn and then,
    as a user turn, Python's [str] of the observation dict: between braces
    and joined by a comma and a space, one entry [repr(id): repr(result)]
    for each id in the order in which the ids were first seen among the
    calls, with the result of the last call that carried the id.  The ids
    are not turned into string keys. *)
Theorem round_appends_observation_str self h s completion obs s2 :
  fst (completions_create (client self) h (model self) (world s))
    = Ok completion ->
  TagContentResult.found (extract_tag_content completion "response") = false ->
  TagContentResult.content (extract_tag_content completion "thought") <> [] ->
  TagContentResult.found (extract_tag_content completion "tool_call") = true ->
  process_tool_calls self
    (TagContentResult.content (extract_tag_content completion "tool_call"))
    (after_request self h s) = (Ok obs, s2) ->
  exists xs,
    runs_calls self
      (TagContentResult.content (extract_tag_content completion "tool_call"))
      (world (after_request self h s)) xs (world s2)
    /\ obs = map (fun k => (k, result_for k xs)) (first_seen (map x_id xs))
    /\ let observation :=
         "{" ++ join ", "
                  (map (fun k => py_repr k ++ ": "
                                 ++ py_repr (result_for k xs))
                     (first_seen (map x_id xs))) ++ "}" in
       react_round self h s =
         (Ok (Next (h ++ [ {| role := "assistant"; content := completion |};
                           {| role := "user"; content := observation |} ])%list),
          s2).
Proof.
  intros Hc Hr Ht Hf Hp.
  destruct (process_tool_calls_from_runs _ _ _ _ _ _ Hp) as (xs & R & _ & O).
  rewrite (record_observations_entries _ _ _ _ _ R) in O.
  exists xs. split; [exact R|]. split; [exact O|].
  intros observation. enter_round Hc Hr.
  destruct (TagContentResult.content (extract_tag_content completion "thought"))
    as [|th ths]; [congruence|].
  simpl list_getitem0. cbv iota. rewrite Hf.
  erewrite bind_ok by exact Hp. unfold ret.
  rewrite py_str_dict, O. unfold observations_of. rewrite map_map.
  unfold update_chat_history. simpl.
  now rewrite <- app_assoc.
Qed.

(** C6: the tool calls of a completion are decoded and run one after the
    other in the order of the list that the extractor returns (the order of
    appearance in the text); the observation dict is built by one
    assignment per call, keyed by the id the call carries, so a key is
    bound to the result of the last call that carried it. *)
Theorem process_tool_calls_order_and_ids self calls s obs s' :
  process_tool_calls self calls s = (Ok obs, s') ->
  exists xs,
    runs_calls self calls (world s) xs (world s')
    /\ trace s' = (trace s ++ map execution_event xs)%list
    /\ obs = record_observations xs []
    /\ forall k, dict_get key_eqb obs k = last_result k xs.
Proof.
  intros H.
  destruct (process_tool_calls_from_runs _ _ _ _ _ _ H) as (xs & R & T & O).
  exists xs. repeat split; auto.
  intros k. rewrite O, record_observations_get.
  now destruct (last_result k xs).
Qed.

(** *** The first request of [run] *)

Lemma react_rounds_extends self n : forall h s r s',
  react_rounds self n h s = (r, s') -> exists evs, extends s s' evs.
Proof.
  induction n as [|n IH]; intros h s r s' H; simpl in H.
  - inversion H; subst. exists []. apply extends_refl.
  - unfold bind in H.
    destruct (react_round self h s) as [[[a|h1]|e] s1] eqn:E1;
      destruct (react_round_extends _ _ _ _ _ E1) as (e1 & X1 & _).
    + inversion H; subst. eauto.
    + destruct (IH _ _ _ _ H) as (e2 & X2).
      eexists. eapply extends_trans; eauto.
    + inversion H; subst. eauto.
Qed.

Lemma react_rounds_S_first self n h s r s' :
  react_rounds self (S n) h s = (r, s') ->
  exists evs,
    extends s s' (EvCompletion "ReactAgent.run" h (model self) :: evs).
Proof.
  simpl. unfold bind. intros H.
  destruct (react_round self h s) as [[[a|h1]|e] s1] eqn:E1;
    destruct (react_round_extends _ _ _ _ _ E1) as (e1 & X1 & _).
  - inversion H; subst. eauto.
  - destruct (react_rounds_extends _ _ _ _ _ _ H) as (e2 & X2).
    exists (e1 ++ e2)%list.
    apply (extends_trans _ _ _ _ _ X1 X2).
  - inversion H; subst. eauto.
Qed.

(** Whatever happens afterwards, [run] begins by requesting a completion
    over the seeded buffer, and leaves the agent with the prompt of that
    buffer. *)
Lemma run_first_request self user_msg max_rounds s :
  snd (fst (run self user_msg max_rounds s)) = with_react_prompt self
  /\ exists evs,
       extends s (snd (run self user_msg max_rounds s))
         (EvCompletion "ReactAgent.run"
            (seed_history (with_react_prompt self) user_msg) (model self)
          :: evs).
Proof.
  unfold run. rewrite with_react_prompt_tools.
  set (self' := with_react_prompt self).
  set (seed := seed_history self' user_msg).
  assert (Hm : model self' = model self) by apply with_react_prompt_model.
  assert (Hfin : forall h s0,
            extends s0
              (snd (request_completion "ReactAgent.run" (client self')
                      (messages h) (model self') s0))
              [EvCompletion "ReactAgent.run" h (model self)]).
  { intros h s0. rewrite request_completion_spec, Hm. reflexivity. }
  match goal with
  | |- context [bind ?l ?k s] =>
      set (loop := l);
      assert (Hloop :
        (exists h', loop s = (Ok (Next h'), s) /\ h' = seed)
        \/ exists r s1 evs, loop s = (r, s1) /\
             extends s s1
               (EvCompletion "ReactAgent.run" seed (model self) :: evs))
  end.
  { subst loop. destruct (tools self) as [|t0 ts].
    - left. eexists; split; reflexivity.
    - destruct (Z.to_nat max_rounds) as [|n] eqn:En.
      + left. eexists; split; reflexivity.
      + right.
        destruct (react_rounds self' (S n) seed s) as [r s1] eqn:E.
        destruct (react_rounds_S_first _ _ _ _ _ _ E) as (evs & X).
        rewrite Hm in X. eauto. }
  destruct Hloop as [(h' & E & ->)|(r & s1 & evs & E & X)].
  - erewrite bind_ok by exact E. cbv beta iota.
    destruct (request_completion _ _ _ _ s) as [r2 s2] eqn:E2.
    simpl. split; [reflexivity|].
    exists []. change s2 with (snd (r2, s2)). rewrite <- E2. apply Hfin.
  - unfold bind. rewrite E.
    destruct r as [[a|h1]|e].
    + simpl. split; eauto.
    + destruct (request_completion _ _ _ _ s1) as [r2 s2] eqn:E2.
      simpl. split; [reflexivity|]. eexists.
      change s2 with (snd (r2, s2)). rewrite <- E2.
      apply (extends_trans _ _ _ _ _ X (Hfin h1 s1)).
    + simpl. split; eauto.
Qed.

Lemma react_block_with_react_prompt self :
  react_block (with_react_prompt self) = react_block self.
Proof.
  unfold react_block, add_tool_signatures.
  now rewrite with_react_prompt_tools.
Qed.

(** The template, cut at the lines that take the signatures, and the
    block with the signatures in their place. *)
Lemma react_template_split :
  REACT_SYSTEM_PROMPT = REACT_HEAD ++ tools_slot ++ REACT_TAIL.
Proof. vm_compute. reflexivity. Qed.

Lemma react_block_text self :
  react_block self =
    String newline EmptyString ++ REACT_HEAD
    ++ lines [ "<tools>";
               join "" (map Tool.fn_signature (tools self));
               "</tools>" ]
    ++ REACT_TAIL.
Proof.
  unfold react_block, add_tool_signatures.
  generalize (join "" (map Tool.fn_signature (tools self))) as sigs.
  intros sigs. unfold lines. cbn [join].
  rewrite !string_app_assoc. vm_compute. reflexivity.
Qed.

(** C10: with tools, every [run] appends the ReAct instructions with the
    tool signatures to [self.system_prompt] and leaves them there: after
    one [run] the prompt ends with the block, after a second [run] on the
    same agent it ends with the block twice, and the first request of the
    second [run] is made over a buffer whose system message holds the
    block twice.  The block is a newline and the text of
    [REACT_SYSTEM_PROMPT] in which the line between the [tools] tags holds
    the signatures of all tools of the agent, one after the other. *)
Theorem run_appends_react_block_every_time
    self user_msg1 max_rounds1 user_msg2 max_rounds2 s :
  tools self <> [] ->
  let block :=
    String newline EmptyString ++ REACT_HEAD
    ++ lines [ "<tools>";
               join "" (map Tool.fn_signature (tools self));
               "</tools>" ]
    ++ REACT_TAIL in
  REACT_SYSTEM_PROMPT = REACT_HEAD ++ lines [ "<tools>"; "%s"; "</tools>" ]
                        ++ REACT_TAIL
  /\ let '(_, self1, s1) := run self user_msg1 max_rounds1 s in
     let '(_, self2, s2) := run self1 user_msg2 max_rounds2 s1 in
     system_prompt self1 = system_prompt self ++ block
     /\ system_prompt self2 = system_prompt self ++ block ++ block
     /\ exists evs,
          trace s2 =
            (trace s1
             ++ EvCompletion "ReactAgent.run"
                  [ {| role := "system";
                       content := system_prompt self ++ block ++ block |};
                    {| role := "user";
                       content := "<question>" ++ user_msg2
                                  ++ "</question>" |} ]
                  (model self)
             :: evs)%list.
Proof.
  intros NE block. split; [exact react_template_split|].
  assert (Hb : block = react_block self)
    by (symmetry; apply react_block_text).
  clearbody block.
  destruct (run_first_request self user_msg1 max_rounds1 s) as (A1 & _).
  destruct (run self user_msg1 max_rounds1 s) as [[r1 self1] s1].
  cbn [fst snd] in A1. subst self1.
  destruct (run_first_request (with_react_prompt self) user_msg2
              max_rounds2 s1) as (A2 & evs & X2).
  destruct (run (with_react_prompt self) user_msg2 max_rounds2 s1)
    as [[r2 self2] s2].
  cbn [fst snd] in A2, X2. subst self2.
  assert (NE' : tools (with_react_prompt self) <> []).
  { rewrite with_react_prompt_tools. exact NE. }
  assert (P1 : system_prompt (with_react_prompt self)
               = system_prompt self ++ block).
  { rewrite Hb. apply with_react_prompt_system_prompt. exact NE. }
  assert (P2 : system_prompt (with_react_prompt (with_react_prompt self))
               = system_prompt self ++ block ++ block).
  { rewrite (with_react_prompt_system_prompt _ NE').
    rewrite react_block_with_react_prompt, P1, <- Hb.
    apply string_app_assoc. }
  split; [exact P1|]. split; [exact P2|].
  exists evs. unfold extends in X2. rewrite X2.
  unfold seed_history, build_prompt_structure.
  rewrite P2, !with_react_prompt_model. reflexivity.
Qed.

End ReactProperties.

(** ** The claims about [ReactAgent] on concrete runs *)

Section ReactExamples.
Import ReactAgent Stub.

(** The constructor with the credential builds the agent of the examples,
    and a run of it that calls one tool and is then answered. *)
Example init_builds_calculator :
  ReactAgent.__init__ environ_with_key
    (inr [sum_two_elements; multiply_two_elements]) "deepseek-chat"
    BASE_SYSTEM_PROMPT initial_state
  = (Ok calculator, initial_state).
Proof. reflexivity. Qed.

Example run_answers_after_one_observation :
  run (C := collaborators [thought_and_sum; "<response>It is 3</response>"])
    calculator question 10 initial_state
  = (Ok "It is 3", calculator',
     {| world := 2%nat;
        trace :=
          [request seed;
           EvToolRun "sum_two_elements" [("a", PyInt 1); ("b", PyInt 2)];
           request (seed ++ [assistant_turn thought_and_sum;
                             user_turn "{0: 3}"])%list] |}).
Proof. vm_compute. reflexivity. Qed.

(** Instance of C7: a scripted model and an agent without tools. *)
Lemma run_without_tools_witness :
  tools plain_agent = []
  /\ run (C := collaborators ["Hello"]) plain_agent "Hi" 10 initial_state
     = (Ok "Hello", plain_agent,
        {| world := 1%nat;
           trace :=
             [request
                [ {| role := "system"; content := "" |};
                  user_turn "<question>Hi</question>" ]] |}).
Proof.
  split; [reflexivity|].
  exact (run_without_tools_single_completion
           (C := collaborators ["Hello"])
           plain_agent "Hi" 10 initial_state eq_refl).
Defined.

(** C1 as the specification states it fails: with a budget of one round
    and a model that never emits a [response] tag, [run] requests two
    completions and returns the second, not the one of the loop. *)
Lemma run_exhausted_counterexample :
  let out :=
    run (C := collaborators [thought_only; "I could not finish"])
      calculator question 1 initial_state in
  fst (fst out) = Ok "I could not finish"
  /\ fst (fst out) <> Ok thought_only
  /\ length (completions_of (trace (snd out))) = 2%nat
  /\ ~ (length (completions_of (trace (snd out))) <= 1)%nat.
Proof.
  vm_compute. repeat split; try discriminate. lia.
Qed.

(** Instance of the amended C1, on the same run. *)
Lemma run_exhausted_witness :
  let C := collaborators [thought_only; "I could not finish"] in
  let h' := (seed ++ [assistant_turn thought_only])%list in
  let s1 := {| world := 1%nat; trace := [request seed] |} in
  let s2 := {| world := 2%nat; trace := [request seed; request h'] |} in
  tools calculator <> []
  /\ react_rounds calculator' (Z.to_nat 1) seed initial_state
     = (Ok (Next h'), s1)
  /\ run calculator question 1 initial_state
     = (Ok "I could not finish", calculator', s2)
  /\ length (completions_of (trace s2)) = 2%nat.
Proof.
  intros C h' s1 s2.
  assert (NE : tools calculator <> []) by discriminate.
  assert (HR : react_rounds calculator' (Z.to_nat 1) seed initial_state
               = (Ok (Next h'), s1))
    by (vm_compute; reflexivity).
  split; [exact NE|]. split; [exact HR|].
  exact (run_exhausted_requests_one_more calculator question 1
           initial_state h' s1 NE HR).
Defined.

(** C4 as the specification states it fails: for one call with id [0]
    whose tool returns [3], the observation turn is the text of the Python
    dict, with the key [0] bare; it is not the JSON object with the key as
    a string, and it is not JSON. *)
Lemma observation_turn_counterexample :
  let C := collaborators [thought_and_sum] in
  let observation := "{0: 3}" in
  react_round calculator seed initial_state
    = (Ok (Next (seed ++ [assistant_turn thought_and_sum;
                          user_turn observation])%list),
       {| world := 1%nat;
          trace := [request seed;
                    EvToolRun "sum_two_elements"
                      [("a", PyInt 1); ("b", PyInt 2)]] |})
  /\ observation_json [(PyInt 0, PyInt 3)] = dq "{`0`: 3}"
  /\ observation <> observation_json [(PyInt 0, PyInt 3)]
  /\ json_loads observation = Raise JSONDecodeError.
Proof.
  vm_compute. repeat split; discriminate.
Qed.

(** Instance of the amended C4: three calls with the ids 0, 1 and 0
    again.  The entry of 0 stays first and holds the result of the third
    call. *)
Lemma round_appends_observation_witness :
  let C := collaborators [thought_and_three_calls] in
  let calls :=
    TagContentResult.content
      (extract_tag_content thought_and_three_calls "tool_call") in
  let obs := [(PyInt 0, PyInt 20); (PyInt 1, PyInt 15)] in
  let s2 :=
    {| world := 1%nat;
       trace := [request seed;
                 EvToolRun "sum_two_elements"
                   [("a", PyInt 1); ("b", PyInt 2)];
                 EvToolRun "sum_two_elements"
                   [("a", PyInt 7); ("b", PyInt 8)];
                 EvToolRun "multiply_two_elements"
                   [("a", PyInt 4); ("b", PyInt 5)]] |} in
  calls = [call_sum_id0; call_sum_id1; call_mul_id0]
  /\ process_tool_calls calculator calls
       (after_request calculator seed initial_state) = (Ok obs, s2)
  /\ react_round calculator seed initial_state
     = (Ok (Next (seed ++ [assistant_turn thought_and_three_calls;
                           user_turn "{0: 20, 1: 15}"])%list), s2)
  /\ exists xs,
       runs_calls calculator calls
         (world (after_request calculator seed initial_state)) xs (world s2)
       /\ obs = map (fun k => (k, result_for k xs)) (first_seen (map x_id xs))
       /\ let observation :=
            "{" ++ join ", "
                     (map (fun k => py_repr k ++ ": "
                                    ++ py_repr (result_for k xs))
                        (first_seen (map x_id xs))) ++ "}" in
          react_round calculator seed initial_state
          = (Ok (Next (seed ++ [assistant_turn thought_and_three_calls;
                                user_turn observation])%list), s2).
Proof.
  intros C calls obs s2.
  assert (HP : process_tool_calls calculator calls
                 (after_request calculator seed initial_state)
               = (Ok obs, s2))
    by (vm_compute; reflexivity).
  split; [vm_compute; reflexivity|]. split; [exact HP|].
  split; [vm_compute; reflexivity|].
  refine (round_appends_observation_str calculator seed initial_state
            thought_and_three_calls obs s2 _ _ _ _ HP);
    vm_compute; try reflexivity; discriminate.
Defined.

(** C5 as the specification states it fails: a call that names the
    unknown tool [divide] makes [run] raise [KeyError], not
    [UnknownToolError]; the call before it has run its tool, and the run
    is over after its first request although four rounds were left. *)
Lemma unknown_tool_counterexample :
  let out :=
    run (C := collaborators [thought_sum_and_divide; thought_only;
                             "<response>3</response>"])
      calculator question 5 initial_state in
  fst (fst out) = Raise (KeyError (PyStr "divide"))
  /\ fst (fst out) <> Raise UnknownToolError
  /\ snd out
     = {| world := 1%nat;
          trace := [request seed;
                    EvToolRun "sum_two_elements"
                      [("a", PyInt 1); ("b", PyInt 2)]] |}.
Proof.
  vm_compute. repeat split; discriminate.
Qed.

(** Instance of the amended C5, on the same run. *)
Lemma unknown_tool_witness :
  let C := collaborators [thought_sum_and_divide; thought_only;
                          "<response>3</response>"] in
  let s2 :=
    {| world := 1%nat;
       trace := [request seed;
                 EvToolRun "sum_two_elements"
                   [("a", PyInt 1); ("b", PyInt 2)]] |} in
  dict_get String.eqb (tools_dict calculator) "divide" = None
  /\ process_tool_calls calculator [call_sum_id0; call_divide]
       (after_request calculator seed initial_state)
     = (Raise (KeyError (PyStr "divide")), s2)
  /\ run calculator question 5 initial_state
     = (Raise (KeyError (PyStr "divide")), calculator', s2).
Proof.
  intros C s2.
  assert (HD : dict_get String.eqb (tools_dict calculator) "divide" = None)
    by reflexivity.
  split; [exact HD|].
  refine (unknown_tool_raises_KeyError calculator question 5 initial_state
            0 seed initial_state thought_sum_and_divide
            [call_sum_id0] call_divide [] [(PyInt 0, PyInt 3)] s2
            (PyDict [(PyStr "name", PyStr "divide");
                     (PyStr "arguments",
                      PyDict [(PyStr "a", PyInt 1); (PyStr "b", PyInt 2)]);
                     (PyStr "id", PyInt 1)])
            "divide" _ _ _ _ _ _ _ _ _ _ _ HD);
    try (vm_compute; reflexivity); try discriminate.
  vm_compute. lia.
Defined.

(** Instance of C6: three calls, the first two with the same id [0]; the
    tools run in the order of the list and the entry for [0] holds the
    result of the second call. *)
Lemma process_tool_calls_witness :
  let C := collaborators [] in
  let calls := [call_sum_id0; call_mul_id0; call_sum_id1] in
  let obs := [(PyInt 0, PyInt 20); (PyInt 1, PyInt 15)] in
  let s' :=
    {| world := 0%nat;
       trace := [EvToolRun "sum_two_elements"
                   [("a", PyInt 1); ("b", PyInt 2)];
                 EvToolRun "multiply_two_elements"
                   [("a", PyInt 4); ("b", PyInt 5)];
                 EvToolRun "sum_two_elements"
                   [("a", PyInt 7); ("b", PyInt 8)]] |} in
  process_tool_calls calculator calls initial_state = (Ok obs, s')
  /\ exists xs,
       runs_calls calculator calls (world initial_state) xs (world s')
       /\ trace s' = (trace initial_state ++ map execution_event xs)%list
       /\ obs = record_observations xs []
       /\ forall k, dict_get key_eqb obs k = last_result k xs.
Proof.
  intros C calls obs s'.
  assert (HP : process_tool_calls calculator calls initial_state
               = (Ok obs, s')) by (vm_compute; reflexivity).
  split; [exact HP|].
  exact (process_tool_calls_order_and_ids calculator calls initial_state
           obs s' HP).
Defined.

(** Instance of C9: a completion without any tag, three rounds allowed. *)
Lemma run_missing_thought_witness :
  let C := collaborators ["I do not know"; thought_only] in
  tools calculator <> []
  /\ run calculator question 3 initial_state
     = (Raise IndexError, calculator',
        {| world := 1%nat; trace := [request seed] |}).
Proof.
  intros C.
  assert (NE : tools calculator <> []) by discriminate.
  split; [exact NE|].
  refine (run_missing_thought_raises_IndexError calculator question 3
            initial_state 0 seed initial_state "I do not know"
            NE _ _ _ _ _);
    try (vm_compute; reflexivity).
  vm_compute. lia.
Defined.

(** Instance of C10: two runs of the same agent. *)
Lemma run_appends_react_block_witness :
  let C := collaborators ["<response>3</response>";
                          "<response>4</response>"] in
  tools calculator <> []
  /\ (let block :=
        String newline EmptyString ++ REACT_HEAD
        ++ lines [ "<tools>"; calculator_signatures; "</tools>" ]
        ++ REACT_TAIL in
      REACT_SYSTEM_PROMPT
      = REACT_HEAD ++ lines [ "<tools>"; "%s"; "</tools>" ] ++ REACT_TAIL
      /\
      let '(_, self1, s1) := run calculator question 3 initial_state in
      let '(_, self2, s2) := run self1 "And 3 + 4?" 3 s1 in
      system_prompt self1 = system_prompt calculator ++ block
      /\ system_prompt self2 = system_prompt calculator ++ block ++ block
      /\ exists evs,
           trace s2 =
             (trace s1
              ++ EvCompletion "ReactAgent.run"
                   [ {| role := "system";
                        content :=
                          system_prompt calculator ++ block ++ block |};
                     {| role := "user";
                        content := "<question>" ++ "And 3 + 4?"
                                   ++ "</question>" |} ]
                   (model calculator)
              :: evs)%list).
Proof.
  intros C.
  assert (NE : tools calculator <> []) by discriminate.
  split; [exact NE|].
  exact (run_appends_react_block_every_time calculator question 3
           "And 3 + 4?" 3 initial_state NE).
Defined.

End ReactExamples.

(** ** Claims about [ReflectionAgent] *)

Section ReflectionProperties.
Context {W : Type} {C : Collaborators W}.
Import ReflectionAgent.

(** C3: when the first critique contains the stop marker, [run] ends the
    loop at once and returns the first draft; it has requested exactly one
    completion over the generation buffer and one over the reflection
    buffer, and the generation buffer holds the system prompt, the request
    and the draft: the critique was never appended to it. *)
Theorem run_stops_on_first_OK
    (self : ReflectionAgent.t) user_msg generation_system_prompt
    reflection_system_prompt n_steps verbose (s : St W) draft critique :
  (0 < n_steps)%Z ->
  let generation_buffer : list Message :=
    [ {| role := "system";
         content := generation_system_prompt
                    ++ BASE_GENERATION_SYSTEM_PROMPT |};
      {| role := "user"; content := user_msg |} ] in
  let reflection_buffer : list Message :=
    [ {| role := "system";
         content := reflection_system_prompt
                    ++ BASE_REFLECTION_SYSTEM_PROMPT |};
      {| role := "user"; content := draft |} ] in
  let g :=
    completions_create (client self) generation_buffer (model self)
      (world s) in
  let r :=
    completions_create (client self) reflection_buffer (model self)
      (snd g) in
  fst g = Ok draft ->
  fst r = Ok critique ->
  str_contains "<OK>" critique = true ->
  let s' :=
    {| world := snd r;
       trace :=
         (trace s
          ++ [EvCompletion "GENERATION" generation_buffer (model self);
              EvCompletion "REFLECTION" reflection_buffer (model self)])%list |} in
  run self user_msg generation_system_prompt reflection_system_prompt
    n_steps verbose s = (Ok draft, s')
  /\ run_locals self user_msg generation_system_prompt
       reflection_system_prompt n_steps verbose s
     = (Ok {| generation := Some draft;
              generation_history :=
                {| ff_messages :=
                     (generation_buffer
                      ++ [ {| role := "assistant"; content := draft |} ])%list;
                   total_length := 3 |};
              reflection_history :=
                {| ff_messages := reflection_buffer; total_length := 3 |} |},
        s').
Proof.
  intros Hn generation_buffer reflection_buffer g r Hg Hr Hok s'.
  assert (HL : run_locals self user_msg generation_system_prompt
                 reflection_system_prompt n_steps verbose s
               = (Ok {| generation := Some draft;
                        generation_history :=
                          {| ff_messages :=
                               (generation_buffer
                                ++ [ {| role := "assistant";
                                        content := draft |} ])%list;
                             total_length := 3 |};
                        reflection_history :=
                          {| ff_messages := reflection_buffer;
                             total_length := 3 |} |},
                  s')).
  { unfold run_locals.
    destruct (Z.to_nat n_steps) as [|n] eqn:En; [lia|].
    simpl reflection_steps. unfold bind at 1.
    unfold reflection_step, generate, reflect, _request_completion.
    unfold bind at 1. rewrite request_completion_spec.
    change (completions_create (client self) _ (model self) (world s))
      with g.
    rewrite Hg. unfold bind at 1. rewrite request_completion_spec.
    change (completions_create (client self) _ (model self) _) with r.
    rewrite Hr, Hok. unfold ret. cbv beta iota.
    unfold s'. do 2 f_equal. cbn [trace].
    rewrite <- app_assoc. reflexivity. }
  split; [|exact HL].
  unfold run. erewrite bind_ok by exact HL. reflexivity.
Qed.

End ReflectionProperties.

(** ** Construction without the credential *)

(** C8: when [DEEPSEEK_API_KEY] is not in the environment, both
    constructors raise the configuration error, a [ValueError] that names
    the variable, and nothing else happens: no agent is built, the world is
    as it was and the trace has gained no completion request and no tool
    run. *)
Theorem init_without_api_key_raises {W : Type}
    (getenv : Environ) (tools : Tool.t W + list (Tool.t W))
    (model system_prompt : string) (s : St W) :
  getenv "DEEPSEEK_API_KEY" = None ->
  ReactAgent.__init__ getenv tools model system_prompt s
    = (Raise (ValueError API_KEY_REQUIRED), s)
  /\ ReflectionAgent.__init__ (W := W) getenv model s
     = (Raise (ValueError API_KEY_REQUIRED), s).
Proof.
  intros H. unfold ReactAgent.__init__, ReflectionAgent.__init__.
  rewrite H. split; reflexivity.
Qed.

(** ** The claims about [ReflectionAgent] and the constructors on concrete
    runs *)

Section ReflectionExamples.
Import Stub.

(** A run of the reflection loop that revises once: the second critique
    holds the stop marker, and the second draft is returned. *)
Example run_revises_once :
  fst (ReflectionAgent.run
         (C := collaborators ["first draft"; "Use a helper";
                              "second draft"; "<OK>"; "third draft"])
         reflector "Write merge sort" "" "" 10 0 initial_state)
  = Ok "second draft".
Proof. vm_compute. reflexivity. Qed.

(** Without any step there is no draft to return. *)
Example run_without_steps :
  fst (ReflectionAgent.run (C := collaborators ["first draft"])
         reflector "Write merge sort" "" "" 0 0 initial_state)
  = Raise UnboundLocalError.
Proof. reflexivity. Qed.

(** Instance of C3: the first critique of the scripted model holds the
    stop marker; ten steps were allowed. *)
Lemma run_stops_on_first_OK_witness :
  let C := collaborators ["first draft"; "Nothing to change: <OK>";
                          "second draft"] in
  let generation_buffer : list Message :=
    [ {| role := "system"; content := BASE_GENERATION_SYSTEM_PROMPT |};
      user_turn "Write merge sort" ] in
  let reflection_buffer : list Message :=
    [ {| role := "system"; content := BASE_REFLECTION_SYSTEM_PROMPT |};
      user_turn "first draft" ] in
  (0 < 10)%Z
  /\ str_contains "<OK>" "Nothing to change: <OK>" = true
  /\ ReflectionAgent.run reflector "Write merge sort" "" "" 10 0
       initial_state
     = (Ok "first draft",
        {| world := 2%nat;
           trace :=
             [EvCompletion "GENERATION" generation_buffer "deepseek-chat";
              EvCompletion "REFLECTION" reflection_buffer "deepseek-chat"] |}).
Proof.
  intros C generation_buffer reflection_buffer.
  assert (Hn : (0 < 10)%Z) by lia.
  assert (Hok : str_contains "<OK>" "Nothing to change: <OK>" = true)
    by reflexivity.
  split; [exact Hn|]. split; [exact Hok|].
  exact (proj1 (run_stops_on_first_OK reflector "Write merge sort" "" ""
                  10 0 initial_state "first draft"
                  "Nothing to change: <OK>" Hn eq_refl eq_refl Hok)).
Defined.

(** Instance of C8: an environment without the credential. *)
Lemma init_without_api_key_witness :
  environ_without_key "DEEPSEEK_API_KEY" = None
  /\ ReactAgent.__init__ environ_without_key
       (inr [sum_two_elements; multiply_two_elements]) "deepseek-chat"
       BASE_SYSTEM_PROMPT initial_state
     = (Raise (ValueError API_KEY_REQUIRED), initial_state)
  /\ ReflectionAgent.__init__ environ_without_key "deepseek-chat" initial_state
     = (Raise (ValueError API_KEY_REQUIRED), initial_state).
Proof.
  split; [reflexivity|].
  exact (init_without_api_key_raises environ_without_key
           (inr [sum_two_elements; multiply_two_elements]) "deepseek-chat"
           BASE_SYSTEM_PROMPT initial_state eq_refl).
Defined.

End ReflectionExamples.

(** ** The crew scheduler *)

Section CrewProperties.
Import Crew.

Variable nodes : list AgentNode.

Local Abbreviation n := (length nodes).
Local Abbreviation edge := (CrewNotions.edge nodes).
Local Abbreviation closed := (CrewNotions.closed nodes).
Local Abbreviation finished_acyclic := (CrewNotions.finished_acyclic nodes).
Local Abbreviation advances := CrewNotions.advances.
Local Abbreviation sound := (CrewNotions.sound nodes).
Local Abbreviation whites := (CrewNotions.whites nodes).
Local Abbreviation enough := (CrewNotions.enough nodes).

(** *** Markings *)

Lemma advances_refl m : advances m m.
Proof. intros w. now left. Qed.

Lemma advances_trans m1 m2 m3 :
  advances m1 m2 -> advances m2 m3 -> advances m1 m3.
Proof.
  intros A B w. destruct (A w) as [E1|[E1 F1]], (B w) as [E2|[E2 F2]].
  - left. congruence.
  - right. split; congruence.
  - right. split; congruence.
  - rewrite F1 in E2. discriminate.
Qed.

Lemma advances_finished m m' w :
  advances m m' -> m w = Finished -> m' w = Finished.
Proof. intros A F. destruct (A w) as [E|[E _]]; congruence. Qed.

Lemma advances_in_progress m m' w :
  advances m m' -> m w = InProgress -> m' w = InProgress.
Proof. intros A F. destruct (A w) as [E|[E _]]; congruence. Qed.

Lemma mark_same m u c : mark m u c u = c.
Proof. unfold mark. now rewrite Nat.eqb_refl. Qed.

Lemma mark_other m u c w : w <> u -> mark m u c w = m w.
Proof.
  intros NE. unfold mark. destruct (Nat.eqb_spec w u); congruence.
Qed.

(** Entering and then leaving [u] takes [u] from unvisited to finished. *)
Lemma advances_through m m' u :
  m u = Unvisited ->
  advances (mark m u InProgress) m' ->
  advances m (mark m' u Finished).
Proof.
  intros U A w. destruct (Nat.eq_dec w u) as [->|NE].
  - right. split; [exact U|apply mark_same].
  - rewrite (mark_other m' u Finished w NE).
    destruct (A w) as [E|[E F]]; rewrite (mark_other m u InProgress w NE) in *;
      [left|right]; auto.
Qed.

(** *** What a traversal that comes back leaves *)

Lemma visit_list_advances (f : nat -> Marking -> Dfs) :
  (forall u m m', f u m = Visited m' -> advances m m') ->
  forall vs m m', visit_list f vs m = Visited m' -> advances m m'.
Proof.
  intros Hf vs. induction vs as [|v vs IH]; intros m m' H; simpl in H.
  - inversion H; subst. apply advances_refl.
  - destruct (f v m) as [|m1|] eqn:E; try discriminate.
    eapply advances_trans; eauto.
Qed.

Lemma visit_advances fuel : forall u m m',
  visit fuel nodes u m = Visited m' -> advances m m'.
Proof.
  induction fuel as [|fuel IH]; intros u m m' H; simpl in H;
    [discriminate|].
  destruct (m u) eqn:U; try discriminate.
  - destruct (visit_list _ _ _) as [|m1|] eqn:E; try discriminate.
    inversion H; subst.
    apply advances_through; [exact U|].
    exact (visit_list_advances _ IH _ _ _ E).
  - inversion H; subst. apply advances_refl.
Qed.

(** Along finished nodes, everything reachable is finished. *)
Lemma closed_reach m u w :
  closed m -> clos_trans nat edge u w -> m u = Finished -> m w = Finished.
Proof.
  intros Cl R. induction R as [x y E|x y z _ IH1 _ IH2]; intros F.
  - exact (Cl _ _ F E).
  - auto.
Qed.

Lemma visit_list_sound (f : nat -> Marking -> Dfs) :
  sound f ->
  (forall u m m', f u m = Visited m' -> advances m m') ->
  forall vs m m',
    visit_list f vs m = Visited m' -> closed m -> finished_acyclic m ->
    (forall v, In v vs -> m' v = Finished)
    /\ closed m' /\ finished_acyclic m'.
Proof.
  intros Hs Ha vs. induction vs as [|v vs IH]; intros m m' H Cl Ac;
    simpl in H.
  - inversion H; subst. repeat split; auto. intros v [].
  - destruct (f v m) as [|m1|] eqn:E; try discriminate.
    destruct (Hs _ _ _ E Cl Ac) as (F1 & Cl1 & Ac1).
    destruct (IH _ _ H Cl1 Ac1) as (Fs & Cl' & Ac').
    repeat split; auto.
    intros w [<-|Hw]; [|auto].
    eapply advances_finished; [|exact F1].
    exact (visit_list_advances _ Ha _ _ _ H).
Qed.

Lemma visit_sound fuel : sound (visit fuel nodes).
Proof.
  induction fuel as [|fuel IH]; intros u m m' H Cl Ac; simpl in H;
    [discriminate|].
  destruct (m u) eqn:U; try discriminate.
  - destruct (visit_list _ _ _) as [|m1|] eqn:E; try discriminate.
    inversion H; subst. clear H.
    assert (A1 : advances (mark m u InProgress) m1)
      by exact (visit_list_advances _ (visit_advances fuel) _ _ _ E).
    assert (G1 : m1 u = InProgress)
      by (apply (advances_in_progress _ _ _ A1), mark_same).
    assert (Cl0 : closed (mark m u InProgress)).
    { intros x y Fx Exy. destruct (Nat.eq_dec x u) as [->|NEx].
      - rewrite mark_same in Fx. discriminate.
      - rewrite mark_other in Fx by exact NEx.
        assert (Fy := Cl _ _ Fx Exy).
        destruct (Nat.eq_dec y u) as [->|NEy]; [congruence|].
        now rewrite mark_other. }
    assert (Ac0 : finished_acyclic (mark m u InProgress)).
    { intros x Fx. destruct (Nat.eq_dec x u) as [->|NEx].
      - rewrite mark_same in Fx. discriminate.
      - rewrite mark_other in Fx by exact NEx. auto. }
    destruct (visit_list_sound _ IH (visit_advances fuel) _ _ _ E Cl0 Ac0)
      as (Fs & Cl1 & Ac1).
    repeat split.
    + apply mark_same.
    + intros x y Fx Exy.
      assert (Fy : m1 y = Finished).
      { destruct (Nat.eq_dec x u) as [->|NEx].
        - apply Fs. exact Exy.
        - rewrite mark_other in Fx by exact NEx. exact (Cl1 _ _ Fx Exy). }
      destruct (Nat.eq_dec y u) as [->|NEy]; [apply mark_same|].
      now rewrite mark_other.
    + intros x Fx Cyc. destruct (Nat.eq_dec x u) as [->|NEx].
      * (* a cycle through [u] would make [u] finished while in progress *)
        assert (Fu : m1 u = Finished).
        { apply clos_trans_t1n in Cyc.
          inversion Cyc as [y E1|y z E1 R]; subst.
          - apply Fs. exact E1.
          - apply (closed_reach m1 y u Cl1).
            + apply clos_t1n_trans. exact R.
            + apply Fs. exact E1. }
        congruence.
      * rewrite mark_other in Fx by exact NEx. exact (Ac1 _ Fx Cyc).
  - inversion H; subst. repeat split; auto.
Qed.

(** *** The traversal never runs out of fuel *)

Lemma filter_length_le {A : Type} (p p' : A -> bool) (l : list A) :
  (forall x, In x l -> p' x = true -> p x = true) ->
  (length (filter p' l) <= length (filter p l))%nat.
Proof.
  induction l as [|x l IH]; intros H; simpl; [lia|].
  assert (IH' := IH (fun y Hy => H y (or_intror Hy))).
  destruct (p' x) eqn:E'.
  - rewrite (H x (or_introl eq_refl) E'). simpl. lia.
  - destruct (p x); simpl; lia.
Qed.

Lemma filter_length_lt (p p' : nat -> bool) (l : list nat) (u : nat) :
  In u l -> p u = true -> p' u = false ->
  (forall x, p' x = true -> p x = true) ->
  (length (filter p' l) < length (filter p l))%nat.
Proof.
  intros Hin Hp Hp' Hle. induction l as [|x l IH]; [destruct Hin|].
  simpl. destruct Hin as [->|Hin].
  - rewrite Hp, Hp'. simpl.
    assert (L := filter_length_le p p' l (fun y _ => Hle y)). lia.
  - specialize (IH Hin). destruct (p' x) eqn:E'.
    + rewrite (Hle x E'). simpl. lia.
    + destruct (p x); simpl; lia.
Qed.

Lemma whites_advances m m' :
  advances m m' -> (whites m' <= whites m)%nat.
Proof.
  intros A. apply filter_length_le. intros w _ U.
  destruct (A w) as [E|[E F]]; [now rewrite <- E|].
  rewrite F in U. discriminate.
Qed.

Lemma whites_enter m u :
  (u < n)%nat -> m u = Unvisited ->
  (whites (mark m u InProgress) < whites m)%nat.
Proof.
  intros Lt U. unfold whites.
  apply filter_length_lt with (u := u).
  - apply in_seq. lia.
  - now rewrite U.
  - now rewrite mark_same.
  - intros x. destruct (Nat.eq_dec x u) as [->|NE].
    + now rewrite mark_same.
    + now rewrite mark_other.
Qed.

Lemma edges_of_registered u v : edge u v -> (v < n)%nat.
Proof.
  unfold edge, edges_of. destruct (nth_error nodes u); [|intros []].
  rewrite filter_In. intros [_ H]. now apply Nat.ltb_lt in H.
Qed.

Lemma visit_list_total (k : nat) (f : nat -> Marking -> Dfs) :
  enough k f ->
  (forall u m m', f u m = Visited m' -> advances m m') ->
  forall vs m,
    (forall v, In v vs -> (v < n)%nat) -> (whites m < k)%nat ->
    visit_list f vs m <> OutOfFuel.
Proof.
  intros He Ha vs. induction vs as [|v vs IH]; intros m Hvs Hw; simpl.
  - discriminate.
  - destruct (f v m) as [|m1|] eqn:E.
    + discriminate.
    + apply IH; [intros w Hw'; apply Hvs; now right|].
      assert (L := whites_advances _ _ (Ha _ _ _ E)). lia.
    + exfalso. exact (He v m (Hvs v (or_introl eq_refl)) Hw E).
Qed.

Lemma visit_total fuel : enough fuel (visit fuel nodes).
Proof.
  induction fuel as [|fuel IH]; intros u m Lt Hw; [lia|].
  simpl. destruct (m u) eqn:U; try discriminate.
  assert (L := whites_enter m u Lt U).
  assert (T : visit_list (visit fuel nodes) (edges_of nodes u)
                (mark m u InProgress) <> OutOfFuel).
  { apply (visit_list_total fuel); auto.
    - exact (visit_advances fuel).
    - intros v Hv. exact (edges_of_registered u v Hv).
    - lia. }
  destruct (visit_list _ _ _); congruence.
Qed.

Lemma whites_initial : whites (fun _ => Unvisited) = n.
Proof.
  unfold whites. simpl unvisited.
  assert (X : forall l : list nat,
            length (filter (fun _ => true) l) = length l).
  { induction l as [|x l IH]; simpl; [reflexivity|now rewrite IH]. }
  now rewrite X, length_seq.
Qed.

Lemma detect_cycle_total : detect_cycle nodes <> OutOfFuel.
Proof.
  unfold detect_cycle.
  apply (visit_list_total (S (length nodes))).
  - apply visit_total.
  - apply visit_advances.
  - intros v Hv. apply in_seq in Hv. lia.
  - rewrite whites_initial. lia.
Qed.

(** *** Cycles are found *)

(** A traversal that comes back from every node shows that there is no
    cycle. *)
Lemma detect_cycle_visited m :
  detect_cycle nodes = Visited m -> forall u, ~ clos_trans nat edge u u.
Proof.
  intros H u Cyc.
  destruct (visit_list_sound _ (visit_sound (S (length nodes)))
              (visit_advances (S (length nodes))) _ _ _ H)
    as (Fs & _ & Ac).
  - intros x y Fx. discriminate.
  - intros x Fx. discriminate.
  - apply (Ac u); [|exact Cyc].
    apply Fs, in_seq.
    apply clos_trans_t1n in Cyc.
    assert (exists v, edge u v) as (v & E)
      by (inversion Cyc; subst; eauto).
    unfold edge, edges_of in E.
    destruct (nth_error nodes u) eqn:N; [|destruct E].
    assert (nth_error nodes u <> None) by congruence.
    apply nth_error_Some in H0. lia.
Qed.

(** The source and the target of a dependency that lies on a cycle are
    registered, so the cycle is a cycle of the graph. *)
Lemma depends_on_source u v : depends_on nodes u v -> (u < n)%nat.
Proof.
  intros (a & N & _). apply nth_error_Some. congruence.
Qed.

Lemma depends_on_path_source u w :
  clos_trans nat (depends_on nodes) u w -> (u < n)%nat.
Proof.
  intros R. induction R as [x y E|x y z _ IH1 _ _]; [|exact IH1].
  exact (depends_on_source _ _ E).
Qed.

Lemma depends_on_path_edge u w :
  clos_trans nat (depends_on nodes) u w -> (w < n)%nat ->
  clos_trans nat edge u w.
Proof.
  intros R. induction R as [x y E|x y z R1 IH1 R2 IH2]; intros Lt.
  - apply t_step. destruct E as (a & N & I).
    unfold edge, edges_of. rewrite N. apply filter_In. split; [exact I|].
    now apply Nat.ltb_lt.
  - apply t_trans with (y := y); [|auto].
    apply IH1. exact (depends_on_path_source _ _ R2).
Qed.

Lemma has_cycle_back_edge : has_cycle nodes -> detect_cycle nodes = BackEdge.
Proof.
  intros (u & Cyc).
  assert (Cyc' : clos_trans nat edge u u)
    by (apply depends_on_path_edge;
        [exact Cyc|exact (depends_on_path_source _ _ Cyc)]).
  destruct (detect_cycle nodes) as [|m|] eqn:E.
  - reflexivity.
  - exfalso. exact (detect_cycle_visited m E u Cyc').
  - exfalso. exact (detect_cycle_total E).
Qed.

End CrewProperties.

(** C2: when the dependencies declared among the registered nodes contain
    a cycle, running the crew, which is what leaving its scope does, raises
    [CyclicDependencyError]; there is no result mapping, the [run] of no
    node has been invoked and the world is as it was. *)
Theorem cyclic_crew_runs_nothing {W : Type}
    (run_node : Crew.AgentNode -> list (string * string) -> W -> Res string * W)
    (nodes : list Crew.AgentNode) (c : Crew.CrewSt W) :
  Crew.has_cycle nodes ->
  Crew.run run_node nodes c = (Raise CyclicDependencyError, c)
  /\ Crew.scope_exit run_node nodes c = (Raise CyclicDependencyError, c).
Proof.
  intros H. unfold Crew.scope_exit, Crew.run.
  rewrite (has_cycle_back_edge nodes H). split; reflexivity.
Qed.

(** ** The claim about the crew on concrete crews *)

Section CrewExamples.
Import Stub.

(** Instance of C2: the declaration A -> B -> A. *)
Lemma cyclic_crew_witness :
  Crew.has_cycle cyclic_crew
  /\ Crew.run echo_node cyclic_crew crew_start
     = (Raise CyclicDependencyError, crew_start)
  /\ Crew.scope_exit echo_node cyclic_crew crew_start
     = (Raise CyclicDependencyError, crew_start).
Proof.
  assert (H : Crew.has_cycle cyclic_crew).
  { exists 0%nat. apply t_trans with (y := 1%nat); apply t_step;
      eexists; (split; [reflexivity|]); simpl; auto. }
  split; [exact H|].
  exact (cyclic_crew_runs_nothing echo_node cyclic_crew crew_start H).
Defined.

(** The traversal and the scheduler on the two crews of the examples: the
    cycle is found by the traversal itself, and the chain runs A, then B,
    then C, each node seeing the output of the node before it. *)
Example detect_cycle_cyclic_crew :
  Crew.detect_cycle cyclic_crew = Crew.BackEdge.
Proof. reflexivity. Qed.

Example chain_crew_runs_in_order :
  Crew.run echo_node chain_crew crew_start
  = (Ok [("A", "OUT_A"); ("B", "OUT_AOUT_B"); ("C", "OUT_AOUT_BOUT_C")],
     {| Crew.c_world := 3%nat; Crew.invoked := [1; 2; 0]%nat |}).
Proof. reflexivity. Qed.

End CrewExamples.

(* ===================================================================== *)
(** * Part III: further properties of the two agents *)
(* ===================================================================== *)

(** ** Construction *)

Lemma dict_get_set_string {V : Type} (d : list (string * V))
    (k : string) (v : V) (k' : string) :
  dict_get String.eqb (dict_set String.eqb d k v) k' =
    if String.eqb k k' then Some v else dict_get String.eqb d k'.
Proof.
  induction d as [|[k0 v0] d IH]; simpl; [reflexivity|].
  destruct (String.eqb_spec k0 k) as [->|NE]; simpl.
  - now destruct (String.eqb k k').
  - destruct (String.eqb_spec k0 k') as [->|NE'].
    + destruct (String.eqb_spec k k'); congruence.
    + exact IH.
Qed.

Lemma find_snoc {A : Type} (p : A -> bool) (l : list A) (x : A) :
  find p (l ++ [x]) =
    match find p l with
    | Some y => Some y
    | None => if p x then Some x else None
    end.
Proof.
  induction l as [|y l IH]; simpl; [reflexivity|].
  now destruct (p y).
Qed.

Lemma tools_dict_from {W : Type} (tools : list (Tool.t W)) :
  forall (d : list (string * Tool.t W)) (n : string),
    dict_get String.eqb
      (fold_left (fun d tool => dict_set String.eqb d (Tool.name tool) tool)
         tools d) n =
    match last_named n tools with
    | Some tool => Some tool
    | None => dict_get String.eqb d n
    end.
Proof.
  unfold last_named.
  induction tools as [|t0 tools IH]; intros d n; simpl; [reflexivity|].
  rewrite IH, find_snoc, dict_get_set_string.
  destruct (find _ (rev tools)); [reflexivity|].
  now destruct (String.eqb (Tool.name t0) n).
Qed.

(** X1: the agent that the constructor builds looks a tool name up in a
    dict in which, of several tools with one name, the last of the list is
    kept: a later tool shadows an earlier one of the same name.  The
    constructor itself requests no completion and runs no tool. *)
Theorem init_tools_dict_last_wins {W : Type} (getenv : Environ)
    (tools : Tool.t W + list (Tool.t W)) (model system_prompt : string)
    (s s' : St W) (self : ReactAgent.t W) :
  ReactAgent.__init__ getenv tools model system_prompt s = (Ok self, s') ->
  s' = s
  /\ ReactAgent.tools self
     = match tools with inl tool => [tool] | inr l => l end
  /\ forall n,
       dict_get String.eqb (ReactAgent.tools_dict self) n
       = last_named n (ReactAgent.tools self).
Proof.
  unfold ReactAgent.__init__.
  destruct (falsy_opt (getenv "DEEPSEEK_API_KEY")); [discriminate|].
  unfold ret. intros H. inversion H; subst. simpl.
  repeat split. intros n. unfold ReactAgent.build_tools_dict.
  rewrite tools_dict_from. now destruct (last_named n _).
Qed.

(** X2: a credential that is set to the empty string is refused like a
    missing one: both constructors raise the [ValueError] and leave the
    state as it was. *)
Theorem init_with_empty_api_key_raises {W : Type}
    (getenv : Environ) (tools : Tool.t W + list (Tool.t W))
    (model system_prompt : string) (s : St W) :
  getenv "DEEPSEEK_API_KEY" = Some "" ->
  ReactAgent.__init__ getenv tools model system_prompt s
    = (Raise (ValueError API_KEY_REQUIRED), s)
  /\ ReflectionAgent.__init__ (W := W) getenv model s
     = (Raise (ValueError API_KEY_REQUIRED), s).
Proof.
  intros H. unfold ReactAgent.__init__, ReflectionAgent.__init__.
  rewrite H. split; reflexivity.
Qed.

(** ** The rounds of [ReactAgent.run] *)

Section ReactFurther.
Context {W : Type} {C : Collaborators W}.
Import ReactAgent.

Implicit Types (self : ReactAgent.t W) (s : St W).

(** Runs a round up to the evaluation of the thought, as in Part II. *)
Ltac step_round Hc Hr :=
  unfold react_round;
  unfold bind at 1; rewrite request_completion_spec; simpl messages;
  rewrite ?with_react_prompt_client, ?with_react_prompt_model;
  rewrite Hc, Hr; unfold bind at 1; unfold lift at 1.

(** [run] when a round returns: the answer leaves [run]. *)
Lemma run_round_returns self user_msg max_rounds s k h s1 answer s2 :
  tools self <> [] ->
  (k < Z.to_nat max_rounds)%nat ->
  react_rounds (with_react_prompt self) k
    (seed_history (with_react_prompt self) user_msg) s = (Ok (Next h), s1) ->
  react_round (with_react_prompt self) h s1 = (Ok (Return answer), s2) ->
  run self user_msg max_rounds s = (Ok answer, with_react_prompt self, s2).
Proof.
  intros NE LT Hk Hr. unfold run. rewrite with_react_prompt_tools.
  destruct (tools self) as [|t0 ts] eqn:ET; [congruence|].
  replace (Z.to_nat max_rounds)
    with (k + S (Z.to_nat max_rounds - S k))%nat by lia.
  assert (HL : react_rounds (with_react_prompt self)
                 (k + S (Z.to_nat max_rounds - S k))
                 (seed_history (with_react_prompt self) user_msg) s
               = (Ok (Return answer), s2)).
  { rewrite react_rounds_add.
    erewrite bind_ok by exact Hk.
    simpl. erewrite bind_ok by exact Hr. reflexivity. }
  erewrite bind_ok by exact HL. reflexivity.
Qed.

(** X3: in any round, a completion with a [response] tag ends [run] at
    once with the content of its first [response] tag; whatever [tool_call]
    tags the same completion holds, no tool is run for them, and no further
    completion is requested. *)
Theorem run_returns_first_response
    self user_msg max_rounds s k h s1 completion answer others :
  tools self <> [] ->
  (k < Z.to_nat max_rounds)%nat ->
  react_rounds (with_react_prompt self) k
    (seed_history (with_react_prompt self) user_msg) s = (Ok (Next h), s1) ->
  fst (completions_create (client self) h (model self) (world s1))
    = Ok completion ->
  TagContentResult.found (extract_tag_content completion "response") = true ->
  TagContentResult.content (extract_tag_content completion "response")
    = answer :: others ->
  run self user_msg max_rounds s =
    (Ok answer, with_react_prompt self, after_request self h s1).
Proof.
  intros NE LT Hk Hc Hf Ha.
  rewrite <- after_request_with_react_prompt.
  apply (run_round_returns self user_msg max_rounds s k h s1); auto.
  unfold react_round.
  unfold bind at 1. rewrite request_completion_spec. simpl messages.
  rewrite with_react_prompt_client, with_react_prompt_model.
  rewrite Hc, Hf, Ha. unfold after_request.
  now rewrite with_react_prompt_client, with_react_prompt_model.
Qed.

(** X4: with tools and a round budget of zero or less, the loop is not
    entered: [run] requests one completion over the seeded buffer, whose
    system message already carries the ReAct block, and returns its
    outcome. *)
Theorem run_without_rounds self user_msg max_rounds s :
  tools self <> [] ->
  (max_rounds <= 0)%Z ->
  let seed : list Message :=
    [ {| role := "system";
         content := system_prompt self ++ react_block self |};
      {| role := "user";
         content := "<question>" ++ user_msg ++ "</question>" |} ] in
  run self user_msg max_rounds s =
    (fst (completions_create (client self) seed (model self) (world s)),
     with_react_prompt self,
     {| world :=
          snd (completions_create (client self) seed (model self) (world s));
        trace :=
          (trace s ++ [EvCompletion "ReactAgent.run" seed (model self)])%list |}).
Proof.
  intros NE Hz seed.
  rewrite (run_after_loop self user_msg max_rounds s
             (seed_history (with_react_prompt self) user_msg) s).
  - unfold seed_history, build_prompt_structure.
    now rewrite (with_react_prompt_system_prompt self NE).
  - destruct (tools self); [congruence|].
    replace (Z.to_nat max_rounds) with 0%nat by lia. reflexivity.
Qed.

(** X5: a round whose completion holds a thought but neither a
    [response] nor a [tool_call] tag is spent without effect on the world:
    the buffer gains the completion as an assistant turn and nothing else,
    no tool runs, and the loop goes on. *)
Theorem round_without_tool_call self h s completion :
  fst (completions_create (client self) h (model self) (world s))
    = Ok completion ->
  TagContentResult.found (extract_tag_content completion "response") = false ->
  TagContentResult.content (extract_tag_content completion "thought") <> [] ->
  TagContentResult.found (extract_tag_content completion "tool_call") = false ->
  react_round self h s =
    (Ok (Next (h ++ [ {| role := "assistant"; content := completion |} ])%list),
     after_request self h s).
Proof.
  intros Hc Hr Ht Hf. step_round Hc Hr.
  destruct (TagContentResult.content (extract_tag_content completion "thought"))
    as [|th ths]; [congruence|].
  simpl list_getitem0. cbv iota. rewrite Hf. reflexivity.
Qed.

(** *** Tool calls that fail *)

(** The calls before a failing one are processed; the failure ends the
    loop of [process_tool_calls]. *)
Lemma process_tool_calls_stops self pre call post s obs1 s1 e s2 :
  process_tool_calls self pre s = (Ok obs1, s1) ->
  process_tool_call self obs1 call s1 = (Raise e, s2) ->
  process_tool_calls self (pre ++ call :: post) s = (Raise e, s2).
Proof.
  intros Hp Hc. unfold process_tool_calls in *.
  rewrite process_tool_calls_from_app.
  erewrite bind_ok by exact Hp. simpl.
  erewrite bind_raise by exact Hc. reflexivity.
Qed.

(** X6: a tool call whose text [json.loads] refuses makes
    [process_tool_calls] raise that decoding error; the calls before it
    have been processed, and no tool runs for it or for the calls after
    it. *)
Theorem malformed_tool_call_raises self pre call post s obs1 s1 e :
  process_tool_calls self pre s = (Ok obs1, s1) ->
  json_loads call = Raise e ->
  process_tool_calls self (pre ++ call :: post) s = (Raise e, s1).
Proof.
  intros Hp Hj. apply (process_tool_calls_stops _ _ _ _ _ _ _ _ _ Hp).
  unfold process_tool_call, decode_tool_call. rewrite Hj. reflexivity.
Qed.

(** X7: a tool call that names a known tool but whose arguments
    [validate_arguments] rejects never reaches the tool: the exception of
    the validation leaves [process_tool_calls] with the state as the calls
    before it left it. *)
Theorem rejected_arguments_never_run
    self pre call post s obs1 s1 tool_call name tool signature e :
  process_tool_calls self pre s = (Ok obs1, s1) ->
  json_loads call = Ok tool_call ->
  py_getitem tool_call "name" = Ok (PyStr name) ->
  dict_get String.eqb (tools_dict self) name = Some tool ->
  json_loads (Tool.fn_signature tool) = Ok signature ->
  validate_arguments tool_call signature = Raise e ->
  process_tool_calls self (pre ++ call :: post) s = (Raise e, s1).
Proof.
  intros Hp Hj Hn Hd Hs Hv.
  apply (process_tool_calls_stops _ _ _ _ _ _ _ _ _ Hp).
  unfold process_tool_call, decode_tool_call.
  rewrite Hj. simpl res_bind. rewrite Hn. simpl res_bind.
  unfold tools_dict_getitem. simpl hashable. cbv iota. rewrite Hd.
  simpl res_bind. rewrite Hs. simpl res_bind. rewrite Hv. reflexivity.
Qed.

(** X8: when the tool of a call raises, the exception leaves
    [process_tool_calls] as it is: the observations collected from the
    calls before are not returned, and the calls after it are not
    processed. *)
Theorem failing_tool_ends_processing self pre call post s obs1 s1 d e :
  process_tool_calls self pre s = (Ok obs1, s1) ->
  decode_tool_call self call = Ok d ->
  fst (Tool.run (d_tool d) (d_kwargs d) (world s1)) = Raise e ->
  process_tool_calls self (pre ++ call :: post) s
    = (Raise e, after_tool d s1).
Proof.
  intros Hp Hd He. apply (process_tool_calls_stops _ _ _ _ _ _ _ _ _ Hp).
  unfold process_tool_call. rewrite Hd.
  unfold bind at 1. unfold lift at 1.
  unfold bind at 1. rewrite run_tool_spec, He. reflexivity.
Qed.

(** X9: the id of a call is read only after its tool has run.  A call
    without an [id], or with an id that cannot be a dict key, first runs
    its tool and then raises ([KeyError] for the missing key, [TypeError]
    for the unhashable one): the effect of the tool stays, its result is
    lost. *)
Theorem id_is_read_after_the_tool_ran
    self pre call post s obs1 s1 d result e :
  process_tool_calls self pre s = (Ok obs1, s1) ->
  decode_tool_call self call = Ok d ->
  fst (Tool.run (d_tool d) (d_kwargs d) (world s1)) = Ok result ->
  (py_getitem (d_validated d) "id" = Raise e
   \/ exists id, py_getitem (d_validated d) "id" = Ok id
                 /\ hashable id = false /\ e = TypeError) ->
  process_tool_calls self (pre ++ call :: post) s
    = (Raise e, after_tool d s1).
Proof.
  intros Hp Hd Hr Hid. apply (process_tool_calls_stops _ _ _ _ _ _ _ _ _ Hp).
  unfold process_tool_call. rewrite Hd.
  unfold bind at 1. unfold lift at 1.
  unfold bind at 1. rewrite run_tool_spec, Hr.
  unfold bind, lift.
  destruct Hid as [Hi|(id & Hi & Hh & ->)]; rewrite Hi; [reflexivity|].
  unfold py_setitem. rewrite Hh. reflexivity.
Qed.

(** *** How many completions [run] requests *)

Lemma tool_runs_no_completion (evs : list Event) :
  forallb is_tool_run evs = true -> completions_of evs = [].
Proof.
  induction evs as [|[ | ] evs IH]; simpl; try discriminate; auto.
Qed.

Lemma react_rounds_count_le self n : forall h s r s',
  react_rounds self n h s = (r, s') ->
  exists evs,
    extends s s' evs /\ (length (completions_of evs) <= n)%nat.
Proof.
  induction n as [|n IH]; intros h s r s' H; simpl in H.
  - inversion H; subst. exists []. split; [apply extends_refl|simpl; lia].
  - unfold bind in H.
    destruct (react_round self h s) as [[[a|h1]|e] s1] eqn:E1;
      destruct (react_round_extends _ _ _ _ _ E1) as (e1 & X1 & F1);
      assert (L1 := tool_runs_no_completion _ F1).
    + inversion H; subst. eexists. split; [exact X1|].
      simpl. rewrite L1. simpl. lia.
    + destruct (IH _ _ _ _ H) as (e2 & X2 & L2).
      eexists. split; [eapply extends_trans; eauto|].
      rewrite completions_of_app. simpl. rewrite L1. simpl. lia.
    + inversion H; subst. eexists. split; [exact X1|].
      simpl. rewrite L1. simpl. lia.
Qed.

(** X10: whatever the model answers and however [run] ends, by a return
    or by an exception, a call of [run] requests at least one completion
    and at most [max_rounds + 1]. *)
Theorem run_requests_bounded self user_msg max_rounds s :
  exists evs,
    trace (snd (run self user_msg max_rounds s)) = (trace s ++ evs)%list
    /\ (1 <= length (completions_of evs) <= Z.to_nat max_rounds + 1)%nat.
Proof.
  destruct (run_first_request self user_msg max_rounds s)
    as (_ & evs0 & X0).
  match type of X0 with
  | extends _ _ ?l => remember l as evs eqn:Eevs
  end.
  exists evs. split; [exact X0|]. split; [subst evs; simpl; lia|].
  clear Eevs evs0. revert X0. unfold run. rewrite with_react_prompt_tools.
  set (self' := with_react_prompt self).
  set (seed := seed_history self' user_msg).
  match goal with
  | |- context [bind ?l ?k s] => set (loop := l)
  end.
  assert (Hloop : exists evs1,
            extends s (snd (loop s)) evs1
            /\ (length (completions_of evs1) <= Z.to_nat max_rounds)%nat).
  { subst loop. destruct (tools self) as [|t0 ts].
    - exists []. split; [apply extends_refl|simpl; lia].
    - destruct (react_rounds self' (Z.to_nat max_rounds) seed s)
        as [r s1] eqn:E.
      exact (react_rounds_count_le _ _ _ _ _ _ E). }
  destruct Hloop as (evs1 & X1 & L1).
  unfold bind. destruct (loop s) as [[[a|h1]|e] s1]; simpl in X1 |- *.
  - intros X0. unfold extends in *. rewrite X1 in X0.
    apply app_inv_head in X0. rewrite <- X0. lia.
  - rewrite request_completion_spec. simpl.
    intros X0. unfold extends in *. simpl in X0. rewrite X1 in X0.
    rewrite <- app_assoc in X0. apply app_inv_head in X0.
    rewrite <- X0, completions_of_app, length_app. simpl. lia.
  - intros X0. unfold extends in *. rewrite X1 in X0.
    apply app_inv_head in X0. rewrite <- X0. lia.
Qed.

(** *** The buffer of the loop *)

Lemma react_round_next_appends self h s h' s' :
  react_round self h s = (Ok (Next h'), s') ->
  exists added,
    h' = (h ++ added)%list
    /\ (1 <= length added <= 2)%nat
    /\ Forall turn_role_ok added.
Proof.
  unfold react_round. unfold bind at 1. rewrite request_completion_spec.
  destruct (fst (completions_create _ _ _ _)) as [completion|e];
    [|discriminate].
  destruct (TagContentResult.found (extract_tag_content completion "response")).
  - unfold bind, lift, ret. destruct (list_getitem0 _); discriminate.
  - unfold bind at 1. unfold lift at 1.
    destruct (list_getitem0 _); [|discriminate].
    destruct (TagContentResult.found (extract_tag_content completion "tool_call")).
    + unfold bind. destruct (process_tool_calls self _ _) as [[obs|e] s1];
        [|discriminate].
      unfold ret. intros H. injection H as <- <-.
      exists [build_prompt_structure completion "assistant" "";
              build_prompt_structure (py_str (PyDict obs)) "user" ""].
      split.
      * unfold update_chat_history. cbn [append ChatHistory_History].
        now rewrite <- app_assoc.
      * split; [simpl; lia|].
        constructor; [now left|]. constructor; [now right|]. constructor.
    + unfold ret. intros H. injection H as <- <-.
      exists [build_prompt_structure completion "assistant" ""].
      split; [reflexivity|]. split; [simpl; lia|].
      constructor; [now left|]. constructor.
Qed.

(** X11: the buffer of the ReAct loop only grows, and it grows at its
    end: after [k] rounds that went on, the buffer is the one the rounds
    started from followed by between [k] and [2 * k] assistant and user
    turns.  Nothing is ever dropped, so the seeded system message and the
    question stay the first two messages of every later request. *)
Theorem react_rounds_only_append self k : forall h s h' s',
  react_rounds self k h s = (Ok (Next h'), s') ->
  exists added,
    h' = (h ++ added)%list
    /\ (k <= length added <= 2 * k)%nat
    /\ Forall turn_role_ok added.
Proof.
  induction k as [|k IH]; intros h s h' s' H; simpl in H.
  - inversion H; subst. exists []. rewrite app_nil_r.
    repeat split; simpl; auto.
  - unfold bind in H.
    destruct (react_round self h s) as [[[a|h1]|e] s1] eqn:E1;
      try discriminate.
    destruct (react_round_next_appends _ _ _ _ _ E1) as (a1 & -> & L1 & F1).
    destruct (IH _ _ _ _ H) as (a2 & -> & L2 & F2).
    exists (a1 ++ a2)%list. rewrite <- app_assoc.
    split; [reflexivity|]. rewrite length_app.
    split; [lia|]. apply Forall_app. auto.
Qed.

(** *** The prompt that [run] builds *)

(** X12: the block that [run] appends to the system prompt is a newline
    and [REACT_SYSTEM_PROMPT] with the signatures of all tools, in the order
    of the tool list and without separators, on the line between the
    [tools] tags; the rest of the template is as it is. *)
Theorem react_block_wraps_signatures self :
  REACT_SYSTEM_PROMPT = REACT_HEAD ++ tools_slot ++ REACT_TAIL
  /\ react_block self =
       String newline EmptyString ++ REACT_HEAD
       ++ lines [ "<tools>";
                  join "" (map Tool.fn_signature (tools self));
                  "</tools>" ]
       ++ REACT_TAIL.
Proof.
  split; [vm_compute; reflexivity|].
  unfold react_block, add_tool_signatures.
  generalize (join "" (map Tool.fn_signature (tools self))) as sigs.
  intros sigs. unfold lines. cbn [join].
  rewrite !string_app_assoc. vm_compute. reflexivity.
Qed.

(** *** A completion request that fails *)

(** X17: when the completion request of a round raises, [run] raises the
    same exception right after that one request: the request is not
    repeated, and nothing of the round takes place. *)
Theorem run_failed_request_is_not_retried
    self user_msg max_rounds s k h s1 e :
  tools self <> [] ->
  (k < Z.to_nat max_rounds)%nat ->
  react_rounds (with_react_prompt self) k
    (seed_history (with_react_prompt self) user_msg) s = (Ok (Next h), s1) ->
  fst (completions_create (client self) h (model self) (world s1))
    = Raise e ->
  run self user_msg max_rounds s =
    (Raise e, with_react_prompt self, after_request self h s1).
Proof.
  intros NE LT Hk Hc.
  rewrite <- after_request_with_react_prompt.
  apply (run_round_raises self user_msg max_rounds s k h s1); auto.
  unfold react_round.
  unfold bind at 1. rewrite request_completion_spec. simpl messages.
  rewrite with_react_prompt_client, with_react_prompt_model.
  rewrite Hc. unfold after_request.
  now rewrite with_react_prompt_client, with_react_prompt_model.
Qed.

End ReactFurther.

(** ** The steps of [ReflectionAgent.run] *)

Section ReflectionFurther.
Context {W : Type} {C : Collaborators W}.
Import ReflectionAgent.

Implicit Types (self : ReflectionAgent.t) (s : St W) (l : Locals).

(** X13: with a step budget of zero or less the loop is not entered and
    [return generation] finds the variable unbound: [run] raises
    [UnboundLocalError] without having requested any completion. *)
Theorem reflection_run_without_steps
    self user_msg generation_system_prompt reflection_system_prompt
    n_steps verbose s :
  (n_steps <= 0)%Z ->
  run self user_msg generation_system_prompt reflection_system_prompt
    n_steps verbose s = (Raise UnboundLocalError, s).
Proof.
  intros H. unfold run, run_locals.
  replace (Z.to_nat n_steps) with 0%nat by lia. reflexivity.
Qed.

(** One step, spelled out: the generation request, then the reflection
    request over the reflection buffer with the draft, then the test of the
    stop marker. *)
Lemma reflection_step_cases self verbose l s :
  let gev :=
    EvCompletion "GENERATION" (messages (generation_history l))
      (model self) in
  let g :=
    completions_create (client self) (messages (generation_history l))
      (model self) (world s) in
  match fst g with
  | Raise e =>
      reflection_step self verbose l s
      = (Raise e, {| world := snd g; trace := (trace s ++ [gev])%list |})
  | Ok draft =>
      let gh := update_chat_history (generation_history l) draft "assistant" in
      let rh := update_chat_history (reflection_history l) draft "user" in
      let rev := EvCompletion "REFLECTION" (messages rh) (model self) in
      let r :=
        completions_create (client self) (messages rh) (model self) (snd g) in
      let s2 := {| world := snd r; trace := (trace s ++ [gev; rev])%list |} in
      match fst r with
      | Raise e => reflection_step self verbose l s = (Raise e, s2)
      | Ok critique =>
          reflection_step self verbose l s
          = (Ok (if str_contains "<OK>" critique
                 then Break {| generation := Some draft;
                               generation_history := gh;
                               reflection_history := rh |}
                 else Continue
                        {| generation := Some draft;
                           generation_history :=
                             update_chat_history gh critique "user";
                           reflection_history :=
                             update_chat_history rh critique "assistant" |}),
             s2)
      end
  end.
Proof.
  intros gev g.
  assert (T : forall rev : Event,
            ((trace s ++ [gev]) ++ [rev])%list
            = (trace s ++ [gev; rev])%list)
    by (intros rev; now rewrite <- app_assoc).
  destruct (fst g) as [draft|e] eqn:Eg.
  - intros gh rh rev r s2.
    destruct (fst r) as [critique|e] eqn:Er;
      unfold reflection_step, generate, reflect, _request_completion;
      unfold bind at 1; rewrite request_completion_spec;
      change (completions_create (client self)
                (messages (generation_history l)) (model self) (world s))
        with g;
      rewrite Eg; unfold bind at 1; rewrite request_completion_spec;
      cbn [world trace];
      change (completions_create (client self)
                (messages (update_chat_history (reflection_history l)
                             draft "user")) (model self) (snd g))
        with r;
      rewrite Er, T.
    + unfold ret. now destruct (str_contains "<OK>" critique).
    + reflexivity.
  - unfold reflection_step, generate, reflect, _request_completion.
    unfold bind at 1. rewrite request_completion_spec.
    change (completions_create (client self)
              (messages (generation_history l)) (model self) (world s))
      with g.
    rewrite Eg. reflexivity.
Qed.

(** What one step requests, whatever its outcome. *)
Lemma reflection_step_requests self verbose l s r s' :
  reflection_step self verbose l s = (r, s') ->
  exists evs,
    extends s s' evs
    /\ hd_error evs
       = Some (EvCompletion "GENERATION" (messages (generation_history l))
                 (model self))
    /\ match r with
       | Raise _ =>
           map site_of evs = ["GENERATION"]
           \/ map site_of evs = ["GENERATION"; "REFLECTION"]
       | Ok st =>
           map site_of evs = ["GENERATION"; "REFLECTION"]
           /\ generation (step_locals st) <> None
       end.
Proof.
  intros H. generalize (reflection_step_cases self verbose l s).
  cbv zeta. rewrite H.
  destruct (fst (completions_create _ _ _ (world s))) as [draft|e].
  - destruct (fst (completions_create _ _ _ _)) as [critique|e];
      intros E; inversion E; subst; eexists; (split; [reflexivity|]);
      (split; [reflexivity|]).
    + split; [reflexivity|].
      destruct (str_contains "<OK>" critique); simpl; discriminate.
    + now right.
  - intros E; inversion E; subst. eexists. split; [reflexivity|].
    split; [reflexivity|]. now left.
Qed.

Lemma reflection_steps_requests self verbose n : forall l s r s',
  reflection_steps self verbose n l s = (r, s') ->
  exists evs,
    extends s s' evs
    /\ (exists rest,
          (map site_of evs ++ rest)%list = reflection_sites n)
    /\ forall l', r = Ok l' ->
         exists k, (k <= n)%nat
                   /\ map site_of evs = reflection_sites k
                   /\ (k = 0%nat -> l' = l)
                   /\ (0 < k -> generation l' <> None)%nat.
Proof.
  induction n as [|n IH]; intros l s r s' H; simpl in H.
  - inversion H; subst. exists []. split; [apply extends_refl|].
    split; [now exists []|].
    intros l' E. inversion E; subst. exists 0%nat.
    repeat split; auto; lia.
  - unfold bind in H.
    destruct (reflection_step self verbose l s) as [[st|e] s1] eqn:E1;
      destruct (reflection_step_requests _ _ _ _ _ _ E1)
        as (e1 & X1 & _ & S1).
    + destruct S1 as (S1 & G1). destruct st as [l1|l1]; simpl in G1.
      * inversion H; subst. exists e1. split; [exact X1|].
        split; [exists (reflection_sites n); now rewrite S1|].
        intros l' E. inversion E; subst. exists 1%nat.
        repeat split; auto; lia.
      * destruct (IH _ _ _ _ H) as (e2 & X2 & (rest & P2) & K2).
        exists (e1 ++ e2)%list.
        split; [eapply extends_trans; eauto|].
        split; [exists rest; rewrite map_app, S1, <- app_assoc; simpl;
                now rewrite P2|].
        intros l' E. destruct (K2 l' E) as (k & Le & Sk & Z0 & Pk).
        exists (S k). rewrite map_app, S1, Sk.
        repeat split; auto; try lia. intros _.
        destruct k; [rewrite Z0 by reflexivity; exact G1|apply Pk; lia].
    + inversion H; subst. exists e1. split; [exact X1|]. split.
      * destruct S1 as [S1|S1]; rewrite S1; simpl; eauto.
      * intros l' E. discriminate.
Qed.

(** X14: [run] requests nothing but completions, alternately for a
    generation and for a reflection and beginning with a generation, at
    most [n_steps] of each, and it never runs a tool; when it returns a
    draft it has made as many reflection requests as generation requests,
    and at least one of each. *)
Theorem reflection_run_requests
    self user_msg generation_system_prompt reflection_system_prompt
    n_steps verbose s :
  let out :=
    run self user_msg generation_system_prompt reflection_system_prompt
      n_steps verbose s in
  exists evs,
    trace (snd out) = (trace s ++ evs)%list
    /\ (exists rest,
          (map site_of evs ++ rest)%list
          = reflection_sites (Z.to_nat n_steps))
    /\ forall draft, fst out = Ok draft ->
         exists k, (1 <= k <= Z.to_nat n_steps)%nat
                   /\ map site_of evs = reflection_sites k.
Proof.
  intros out. subst out. unfold run, run_locals, bind.
  destruct (reflection_steps self verbose (Z.to_nat n_steps) _ s)
    as [[l'|e] s1] eqn:E;
    destruct (reflection_steps_requests _ _ _ _ _ _ _ E)
      as (evs & X & P & K); exists evs.
  - destruct (K l' eq_refl) as (k & Le & Sk & Z0 & Pk).
    destruct (generation l') as [d|] eqn:G; simpl;
      (split; [exact X|]); (split; [exact P|]).
    + intros draft _. exists k. split; [|exact Sk].
      destruct k; [|lia]. rewrite Z0 in G by reflexivity. discriminate.
    + intros draft D. discriminate.
  - simpl. split; [exact X|]. split; [exact P|]. intros d D. discriminate.
Qed.

(** X18: when the reflection request of the first step raises, [run]
    raises the same exception; the draft that the generation had returned
    is not returned, and neither request is repeated. *)
Theorem reflection_failure_loses_the_draft
    self user_msg generation_system_prompt reflection_system_prompt
    n_steps verbose s draft e :
  (0 < n_steps)%Z ->
  let generation_buffer : list Message :=
    [ {| role := "system";
         content := generation_system_prompt
                    ++ BASE_GENERATION_SYSTEM_PROMPT |};
      {| role := "user"; content := user_msg |} ] in
  let reflection_buffer : list Message :=
    [ {| role := "system";
         content := reflection_system_prompt
                    ++ BASE_REFLECTION_SYSTEM_PROMPT |};
      {| role := "user"; content := draft |} ] in
  let g :=
    completions_create (client self) generation_buffer (model self)
      (world s) in
  let r :=
    completions_create (client self) reflection_buffer (model self)
      (snd g) in
  fst g = Ok draft ->
  fst r = Raise e ->
  run self user_msg generation_system_prompt reflection_system_prompt
    n_steps verbose s
  = (Raise e,
     {| world := snd r;
        trace :=
          (trace s
           ++ [EvCompletion "GENERATION" generation_buffer (model self);
               EvCompletion "REFLECTION" reflection_buffer (model self)])%list |}).
Proof.
  intros Hn gbuf rbuf g r Hg Hr.
  unfold run, run_locals.
  destruct (Z.to_nat n_steps) as [|m] eqn:En; [lia|].
  set (l0 := initial_locals user_msg generation_system_prompt
               reflection_system_prompt).
  change (reflection_steps self verbose (S m) l0)
    with (st <- reflection_step self verbose l0 ;;
          match st with
          | Break l' => ret l'
          | Continue l' => reflection_steps self verbose m l'
          end).
  generalize (reflection_step_cases self verbose l0 s). cbv zeta.
  change (completions_create (client self)
            (messages (generation_history l0)) (model self) (world s))
    with g.
  rewrite Hg.
  change (completions_create (client self)
            (messages (update_chat_history (reflection_history l0)
                         draft "user")) (model self) (snd g))
    with r.
  rewrite Hr. intros E1.
  unfold bind at 1. unfold bind at 1. rewrite E1. reflexivity.
Qed.

(** *** The cap of the two buffers *)

Lemma update_capped (sys : Message) (h : FixedFirstChatHistory)
    (msg role : string) :
  capped_buffer sys h -> capped_buffer sys (update_chat_history h msg role).
Proof.
  intros (T & L & H). unfold capped_buffer, update_chat_history.
  cbn [append FixedFirst_History ff_messages total_length]. rewrite T.
  destruct (ff_messages h) as [|a [|b [|c [|d rest]]]]; simpl in *;
    try discriminate; repeat split; auto; lia.
Qed.

Lemma reflection_steps_capped self verbose gsys rsys n : forall l s r s',
  capped_buffer gsys (generation_history l) ->
  capped_buffer rsys (reflection_history l) ->
  reflection_steps self verbose n l s = (r, s') ->
  exists evs,
    extends s s' evs /\ Forall (capped_request gsys rsys) evs.
Proof.
  induction n as [|n IH]; intros l s r s' Cg Cr H; simpl in H.
  - inversion H; subst. exists []. split; [apply extends_refl|constructor].
  - unfold bind in H.
    assert (Cr1 : forall draft,
              capped_buffer rsys
                (update_chat_history (reflection_history l) draft "user"))
      by (intros; now apply update_capped).
    assert (Cg1 : forall draft,
              capped_buffer gsys
                (update_chat_history (generation_history l) draft "assistant"))
      by (intros; now apply update_capped).
    assert (G : capped_request gsys rsys
                  (EvCompletion "GENERATION"
                     (messages (generation_history l)) (model self)))
      by (destruct Cg as (_ & L & Hd); split; assumption).
    assert (R : forall draft,
              capped_request gsys rsys
                (EvCompletion "REFLECTION"
                   (messages (update_chat_history (reflection_history l)
                                draft "user")) (model self)))
      by (intros draft; destruct (Cr1 draft) as (_ & L & Hd);
          split; assumption).
    generalize (reflection_step_cases self verbose l s). cbv zeta.
    destruct (fst (completions_create _ _ _ (world s))) as [draft|e].
    + destruct (fst (completions_create _ _ _ _)) as [critique|e];
        intros E; rewrite E in H.
      * destruct (str_contains "<OK>" critique).
        -- unfold ret in H. inversion H; subst.
           eexists. split; [reflexivity|]. repeat first [apply Forall_nil
             | apply Forall_cons; [solve [exact G | apply R]|]].
        -- apply IH in H; [|now apply update_capped|now apply update_capped].
           destruct H as (e2 & X2 & F2).
           eexists. split.
           ++ eapply extends_trans; [|exact X2]. reflexivity.
           ++ apply Forall_app. split; [|exact F2].
              repeat first [apply Forall_nil
             | apply Forall_cons; [solve [exact G | apply R]|]].
      * inversion H; subst. eexists. split; [reflexivity|].
        repeat first [apply Forall_nil
             | apply Forall_cons; [solve [exact G | apply R]|]].
    + intros E; rewrite E in H. inversion H; subst.
      eexists. split; [reflexivity|]. repeat first [apply Forall_nil
             | apply Forall_cons; [solve [exact G | apply R]|]].
Qed.

(** X15: every completion that [run] requests is over a buffer of at most
    three messages whose first message is the system message of that
    buffer: the generation instructions for a generation, the reflection
    instructions for a reflection.  However many steps are taken, the
    requests do not grow. *)
Theorem reflection_requests_are_capped
    self user_msg generation_system_prompt reflection_system_prompt
    n_steps verbose s :
  let generation_system :=
    {| role := "system";
       content := generation_system_prompt
                  ++ BASE_GENERATION_SYSTEM_PROMPT |} in
  let reflection_system :=
    {| role := "system";
       content := reflection_system_prompt
                  ++ BASE_REFLECTION_SYSTEM_PROMPT |} in
  exists evs,
    trace (snd (run self user_msg generation_system_prompt
                  reflection_system_prompt n_steps verbose s))
      = (trace s ++ evs)%list
    /\ Forall (capped_request generation_system reflection_system) evs.
Proof.
  intros gsys rsys. unfold run, run_locals, bind.
  destruct (reflection_steps self verbose (Z.to_nat n_steps) _ s)
    as [[l'|e] s1] eqn:E;
    apply (reflection_steps_capped _ _ gsys rsys) in E;
    try (repeat split; simpl; lia).
  - destruct E as (evs & X & F). exists evs.
    destruct (generation l'); simpl; auto.
  - destruct E as (evs & X & F). exists evs. simpl. auto.
Qed.

(** *** What the second generation is asked *)

Lemma reflection_steps_first_request self verbose n l s r s' :
  reflection_steps self verbose (S n) l s = (r, s') ->
  exists evs,
    extends s s'
      (EvCompletion "GENERATION" (messages (generation_history l))
         (model self) :: evs).
Proof.
  simpl. unfold bind. intros H.
  destruct (reflection_step self verbose l s) as [[st|e] s1] eqn:E1;
    destruct (reflection_step_requests _ _ _ _ _ _ E1)
      as ([|ev e1] & X1 & Hd & _); try discriminate;
    injection Hd as ->.
  - destruct st as [l1|l1].
    + inversion H; subst. eauto.
    + destruct (reflection_steps_requests _ _ _ _ _ _ _ H) as (e2 & X2 & _).
      exists (e1 ++ e2)%list. exact (extends_trans _ _ _ _ _ X1 X2).
  - inversion H; subst. eauto.
Qed.

(** X16: when the first critique does not hold the stop marker and a
    second step is allowed, the second generation is requested over the
    generation instructions, the first draft and the critique: the buffer
    being capped at three messages, the user's request has been dropped
    from it. *)
Theorem second_generation_forgets_request
    self user_msg generation_system_prompt reflection_system_prompt
    n_steps verbose s draft critique :
  (2 <= n_steps)%Z ->
  let generation_system :=
    {| role := "system";
       content := generation_system_prompt
                  ++ BASE_GENERATION_SYSTEM_PROMPT |} in
  let reflection_system :=
    {| role := "system";
       content := reflection_system_prompt
                  ++ BASE_REFLECTION_SYSTEM_PROMPT |} in
  let generation_buffer : list Message :=
    [ generation_system; {| role := "user"; content := user_msg |} ] in
  let reflection_buffer : list Message :=
    [ reflection_system; {| role := "user"; content := draft |} ] in
  let g :=
    completions_create (client self) generation_buffer (model self)
      (world s) in
  let r :=
    completions_create (client self) reflection_buffer (model self)
      (snd g) in
  fst g = Ok draft ->
  fst r = Ok critique ->
  str_contains "<OK>" critique = false ->
  exists evs,
    trace (snd (run self user_msg generation_system_prompt
                  reflection_system_prompt n_steps verbose s))
    = (trace s
       ++ [ EvCompletion "GENERATION" generation_buffer (model self);
            EvCompletion "REFLECTION" reflection_buffer (model self);
            EvCompletion "GENERATION"
              [ generation_system;
                {| role := "assistant"; content := draft |};
                {| role := "user"; content := critique |} ]
              (model self) ]
       ++ evs)%list.
Proof.
  intros Hn gsys rsys gbuf rbuf g r Hg Hr Hok.
  unfold run, run_locals.
  destruct (Z.to_nat n_steps) as [|[|m]] eqn:En; try lia.
  set (l0 := initial_locals user_msg generation_system_prompt
               reflection_system_prompt).
  change (reflection_steps self verbose (S (S m)) l0)
    with (st <- reflection_step self verbose l0 ;;
          match st with
          | Break l' => ret l'
          | Continue l' => reflection_steps self verbose (S m) l'
          end).
  generalize (reflection_step_cases self verbose l0 s). cbv zeta.
  change (completions_create (client self)
            (messages (generation_history l0)) (model self) (world s))
    with g.
  rewrite Hg.
  change (completions_create (client self)
            (messages (update_chat_history (reflection_history l0)
                         draft "user")) (model self) (snd g))
    with r.
  rewrite Hr, Hok. intros E1.
  unfold bind at 1. unfold bind at 1. rewrite E1. cbv beta iota.
  match goal with
  | |- context [reflection_steps self verbose (S m) ?l1 ?s2] =>
      destruct (reflection_steps self verbose (S m) l1 s2)
        as [res s3] eqn:E2
  end.
  destruct (reflection_steps_first_request _ _ _ _ _ _ _ E2) as (evs & X).
  exists evs. unfold extends in X.
  destruct res as [l'|e]; [destruct (generation l')|]; simpl;
    rewrite X; simpl; now rewrite <- app_assoc.
Qed.

End ReflectionFurther.

(** ** The further properties on concrete runs *)

Section FurtherExamples.
Import ReactAgent Stub.

(** Instance of X1: two tools under one name; the second is the one the
    agent dispatches to. *)
Lemma init_tools_dict_witness :
  let self :=
    {| client := "sk-test"; model := "deepseek-chat";
       system_prompt := BASE_SYSTEM_PROMPT;
       tools := [sum_two_elements; sum_impostor];
       tools_dict := build_tools_dict [sum_two_elements; sum_impostor] |} in
  ReactAgent.__init__ environ_with_key
    (inr [sum_two_elements; sum_impostor]) "deepseek-chat"
    BASE_SYSTEM_PROMPT initial_state = (Ok self, initial_state)
  /\ dict_get String.eqb (tools_dict self) "sum_two_elements"
     = Some sum_impostor.
Proof.
  intros self.
  assert (H : ReactAgent.__init__ environ_with_key
                (inr [sum_two_elements; sum_impostor]) "deepseek-chat"
                BASE_SYSTEM_PROMPT initial_state = (Ok self, initial_state))
    by reflexivity.
  split; [exact H|].
  exact (proj2 (proj2 (init_tools_dict_last_wins _ _ _ _ _ _ _ H))
           "sum_two_elements").
Defined.

(** Instance of X2. *)
Lemma init_with_empty_api_key_witness :
  environ_empty_key "DEEPSEEK_API_KEY" = Some ""
  /\ ReactAgent.__init__ environ_empty_key (inl sum_two_elements)
       "deepseek-chat" BASE_SYSTEM_PROMPT initial_state
     = (Raise (ValueError API_KEY_REQUIRED), initial_state)
  /\ ReflectionAgent.__init__ environ_empty_key "deepseek-chat"
       initial_state
     = (Raise (ValueError API_KEY_REQUIRED), initial_state).
Proof.
  split; [reflexivity|].
  exact (init_with_empty_api_key_raises environ_empty_key
           (inl sum_two_elements) "deepseek-chat" BASE_SYSTEM_PROMPT
           initial_state eq_refl).
Defined.

(** Instance of X3: the completion holds a response and a tool call; the
    tool is not run. *)
Lemma run_returns_first_response_witness :
  let C := collaborators [response_and_sum; thought_only] in
  tools calculator <> []
  /\ run calculator question 3 initial_state
     = (Ok "It is 3", calculator',
        {| world := 1%nat; trace := [request seed] |}).
Proof.
  intros C.
  assert (NE : tools calculator <> []) by discriminate.
  split; [exact NE|].
  refine (run_returns_first_response calculator question 3 initial_state
            0 seed initial_state response_and_sum "It is 3" []
            NE _ _ _ _ _);
    try (vm_compute; reflexivity).
  vm_compute. lia.
Defined.

(** Instance of X4: a budget of zero rounds. *)
Lemma run_without_rounds_witness :
  let C := collaborators [thought_only] in
  tools calculator <> [] /\ (0 <= 0)%Z
  /\ run calculator question 0 initial_state
     = (Ok thought_only, calculator',
        {| world := 1%nat; trace := [request seed] |}).
Proof.
  intros C.
  assert (NE : tools calculator <> []) by discriminate.
  assert (Hz : (0 <= 0)%Z) by lia.
  split; [exact NE|]. split; [exact Hz|].
  exact (run_without_rounds calculator question 0 initial_state NE Hz).
Defined.

(** Instance of X5: a thought and nothing else. *)
Lemma round_without_tool_call_witness :
  let C := collaborators [thought_only] in
  react_round calculator seed initial_state
  = (Ok (Next (seed ++ [assistant_turn thought_only])%list),
     {| world := 1%nat; trace := [request seed] |}).
Proof.
  intros C.
  refine (round_without_tool_call calculator seed initial_state
            thought_only _ _ _ _);
    try (vm_compute; reflexivity).
  discriminate.
Defined.

(** Instance of X6: a good call, then a text that is not JSON. *)
Lemma malformed_tool_call_witness :
  let C := collaborators [] in
  json_loads call_malformed = Raise JSONDecodeError
  /\ process_tool_calls workshop
       [call_sum_id0; call_malformed; call_sum_id1] initial_state
     = (Raise JSONDecodeError, after_sum).
Proof.
  intros C.
  assert (HJ : json_loads call_malformed = Raise JSONDecodeError)
    by reflexivity.
  split; [exact HJ|].
  refine (malformed_tool_call_raises workshop [call_sum_id0] call_malformed
            [call_sum_id1] initial_state [(PyInt 0, PyInt 3)] after_sum
            JSONDecodeError _ HJ).
  vm_compute. reflexivity.
Defined.

(** Instance of X7: a call of the sum without its second argument. *)
Lemma rejected_arguments_witness :
  let C := collaborators [] in
  process_tool_calls workshop
    [call_sum_id0; call_missing_argument; call_sum_id1] initial_state
  = (Raise ArgumentError, after_sum).
Proof.
  intros C.
  refine (rejected_arguments_never_run workshop [call_sum_id0]
            call_missing_argument [call_sum_id1] initial_state
            [(PyInt 0, PyInt 3)] after_sum
            (PyDict [(PyStr "name", PyStr "sum_two_elements");
                     (PyStr "arguments", PyDict [(PyStr "a", PyInt 1)]);
                     (PyStr "id", PyInt 3)])
            "sum_two_elements" sum_two_elements
            (PyDict [(PyStr "name", PyStr "sum_two_elements");
                     (PyStr "parameters",
                      PyDict
                        [(PyStr "properties",
                          PyDict
                            [(PyStr "a", PyDict [(PyStr "type", PyStr "int")]);
                             (PyStr "b", PyDict [(PyStr "type", PyStr "int")])])])])
            ArgumentError _ _ _ _ _ _);
    vm_compute; reflexivity.
Defined.

(** Instance of X8: a good call, then the tool that raises. *)
Lemma failing_tool_witness :
  let C := collaborators [] in
  process_tool_calls workshop [call_sum_id0; call_fails; call_sum_id1]
    initial_state
  = (Raise (ExternalError "boom"),
     {| world := 1%nat;
        trace := [EvToolRun "sum_two_elements"
                    [("a", PyInt 1); ("b", PyInt 2)];
                  EvToolRun "always_fails" []] |}).
Proof.
  intros C.
  refine (failing_tool_ends_processing workshop [call_sum_id0] call_fails
            [call_sum_id1] initial_state [(PyInt 0, PyInt 3)] after_sum
            {| d_tool := always_fails;
               d_validated :=
                 PyDict [(PyStr "name", PyStr "always_fails");
                         (PyStr "arguments", PyDict []);
                         (PyStr "id", PyInt 2)];
               d_kwargs := [] |}
            (ExternalError "boom") _ _ _);
    vm_compute; reflexivity.
Defined.

(** Instance of X9: a call without an id; its tool has run when the
    [KeyError] is raised. *)
Lemma id_is_read_after_witness :
  let C := collaborators [] in
  process_tool_calls workshop [call_without_id; call_sum_id1] initial_state
  = (Raise (KeyError (PyStr "id")), after_sum).
Proof.
  intros C.
  refine (id_is_read_after_the_tool_ran workshop [] call_without_id
            [call_sum_id1] initial_state [] initial_state
            {| d_tool := sum_two_elements;
               d_validated :=
                 PyDict [(PyStr "name", PyStr "sum_two_elements");
                         (PyStr "arguments",
                          PyDict [(PyStr "a", PyInt 1); (PyStr "b", PyInt 2)])];
               d_kwargs := [("a", PyInt 1); ("b", PyInt 2)] |}
            (PyInt 3) (KeyError (PyStr "id")) _ _ _ _);
    try (vm_compute; reflexivity).
  left. vm_compute. reflexivity.
Defined.

(** The same with an id that is a list. *)
Example id_list_raises_after_the_tool_ran :
  process_tool_calls (C := collaborators []) workshop
    [call_list_id; call_sum_id1] initial_state
  = (Raise TypeError, after_sum).
Proof. vm_compute. reflexivity. Qed.

(** Instance of X17: the script of the model is used up at the second
    request. *)
Lemma run_failed_request_witness :
  let C := collaborators [thought_only] in
  let h := (seed ++ [assistant_turn thought_only])%list in
  tools calculator <> []
  /\ run calculator question 5 initial_state
     = (Raise (ExternalError "the script is used up"), calculator',
        {| world := 2%nat; trace := [request seed; request h] |}).
Proof.
  intros C h.
  assert (NE : tools calculator <> []) by discriminate.
  split; [exact NE|].
  refine (run_failed_request_is_not_retried calculator question 5
            initial_state 1 h
            {| world := 1%nat; trace := [request seed] |}
            (ExternalError "the script is used up") NE _ _ _);
    try (vm_compute; reflexivity).
  vm_compute. lia.
Defined.

(** Instance of X18: the script of the model holds one draft only. *)
Lemma reflection_failure_witness :
  let C := collaborators ["first draft"] in
  (0 < 10)%Z
  /\ fst (ReflectionAgent.run reflector "Write merge sort" "" "" 10 0
            initial_state)
     = Raise (ExternalError "the script is used up").
Proof.
  intros C. assert (Hn : (0 < 10)%Z) by lia. split; [exact Hn|].
  exact (f_equal fst
           (reflection_failure_loses_the_draft reflector "Write merge sort"
              "" "" 10 0 initial_state "first draft"
              (ExternalError "the script is used up") Hn eq_refl eq_refl)).
Defined.

(** Instance of X11: two rounds, the first with an observation. *)
Lemma react_rounds_only_append_witness :
  let C := collaborators [thought_and_sum; thought_only] in
  let h' :=
    (seed ++ [assistant_turn thought_and_sum; user_turn "{0: 3}";
              assistant_turn thought_only])%list in
  let s' :=
    {| world := 2%nat;
       trace := [request seed;
                 EvToolRun "sum_two_elements"
                   [("a", PyInt 1); ("b", PyInt 2)];
                 request (seed ++ [assistant_turn thought_and_sum;
                                   user_turn "{0: 3}"])%list] |} in
  react_rounds calculator 2 seed initial_state = (Ok (Next h'), s')
  /\ exists added,
       h' = (seed ++ added)%list
       /\ (2 <= length added <= 2 * 2)%nat
       /\ Forall turn_role_ok added.
Proof.
  intros C h' s'.
  assert (H : react_rounds calculator 2 seed initial_state
              = (Ok (Next h'), s')) by (vm_compute; reflexivity).
  split; [exact H|].
  exact (react_rounds_only_append calculator 2 seed initial_state h' s' H).
Defined.

(** Instance of X13. *)
Lemma reflection_run_without_steps_witness :
  let C := collaborators ["first draft"] in
  (0 <= 0)%Z
  /\ ReflectionAgent.run reflector "Write merge sort" "" "" 0 0
       initial_state
     = (Raise UnboundLocalError, initial_state).
Proof.
  intros C. assert (Hz : (0 <= 0)%Z) by lia. split; [exact Hz|].
  exact (reflection_run_without_steps reflector "Write merge sort" "" ""
           0 0 initial_state Hz).
Defined.

(** Instance of X16: the first critique asks for a change. *)
Lemma second_generation_witness :
  let C := collaborators ["first draft"; "Use a helper";
                          "second draft"; "<OK>"] in
  let generation_system :=
    {| role := "system"; content := BASE_GENERATION_SYSTEM_PROMPT |} in
  let reflection_system :=
    {| role := "system"; content := BASE_REFLECTION_SYSTEM_PROMPT |} in
  (2 <= 10)%Z
  /\ str_contains "<OK>" "Use a helper" = false
  /\ exists evs,
       trace (snd (ReflectionAgent.run reflector "Write merge sort" "" ""
                     10 0 initial_state))
       = (trace initial_state
          ++ [ EvCompletion "GENERATION"
                 [generation_system; user_turn "Write merge sort"]
                 "deepseek-chat";
               EvCompletion "REFLECTION"
                 [reflection_system; user_turn "first draft"]
                 "deepseek-chat";
               EvCompletion "GENERATION"
                 [generation_system; assistant_turn "first draft";
                  user_turn "Use a helper"]
                 "deepseek-chat" ]
          ++ evs)%list.
Proof.
  intros C generation_system reflection_system.
  assert (Hn : (2 <= 10)%Z) by lia.
  assert (Hok : str_contains "<OK>" "Use a helper" = false) by reflexivity.
  split; [exact Hn|]. split; [exact Hok|].
  exact (second_generation_forgets_request reflector "Write merge sort"
           "" "" 10 0 initial_state "first draft" "Use a helper"
           Hn eq_refl eq_refl Hok).
Defined.

End FurtherExamples.
